(** * The measure collection pipeline of the React performance panel

    A shallow embedding of [src/extension/components/ReactPerfDevtool.js]:
    the module-level [store], the component's [state] and [timer], the four
    [queries] evaluated in the inspected window, and every method of the
    [ReactPerfDevtool] class that takes part in the poll / fetch / merge /
    reset cycle.  Methods are written in a small monad that threads the
    world (store and component instance), logs the calls made to the outside
    (the evaluation channel, timers, reloads, the chart) and propagates an
    uncaught exception. *)

From Stdlib Require Import ZArith List String Ascii Bool.
From Stdlib Require Import PrimFloat FloatOps SpecFloat DecimalString.
Import ListNotations.

#[local] Set Warnings "-inexact-float".

Local Open Scope list_scope.
Local Open Scope string_scope.

(** Splits conjunctions, and nothing else. *)
Ltac split_all := repeat match goal with |- _ /\ _ => split end.

(** ** JavaScript values *)

(** The values that travel through the evaluation channel and sit in the
    scalar fields of the view model: [undefined], a number (a binary64
    float, as every JavaScript number is) or a string. *)
Inductive jsval : Type :=
| JUndefined
| JNum (x : float)
| JStr (s : string).

(** [a === b]: no conversion, values of different types are never equal;
    numbers compare as IEEE floats (so [-0 === 0], and [NaN] equals
    nothing). *)
Definition strict_eq (a b : jsval) : bool :=
  match a, b with
  | JUndefined, JUndefined => true
  | JNum x, JNum y => PrimFloat.eqb x y
  | JStr s, JStr t => String.eqb s t
  | _, _ => false
  end.

(** The second argument of an evaluation callback: [undefined] ([None]) on
    success, an exception-info object ([Some], always truthy) on failure. *)
Definition ExceptionInfo : Type := string.

Definition truthy_err (err : option ExceptionInfo) : bool :=
  match err with Some _ => true | None => false end.

(** ** [Number.prototype.toFixed(2)]

    Computed exactly from the float's mantissa and exponent
    ([x = m * 2^e]). *)
Module Number.

Definition dec (z : Z) : string := NilZero.string_of_uint (N.to_uint (Z.to_N z)).

(** The integer [n] for which [n / 100 - m * 2^e] is as close to zero as
    possible, the larger one on a tie: [floor (100 * m * 2^e + 1/2)]. *)
Definition hundredths (m : positive) (e : Z) : Z :=
  if (0 <=? e)%Z then (100 * Z.pos m * 2 ^ e)%Z
  else ((200 * Z.pos m + 2 ^ (- e)) / 2 ^ (- e + 1))%Z.

(** Digits of [n], padded on the left to three, with the point before the
    last two. *)
Definition point2 (n : Z) : string :=
  let d := dec n in
  let d := if (String.length d <=? 2)%nat
           then String.concat "" (repeat "0" (3 - String.length d)) ++ d
           else d in
  let k := String.length d in
  substring 0 (k - 2) d ++ "." ++ substring (k - 2) 2 d.

Fixpoint strip0 (rev_digits : list ascii) : list ascii :=
  match rev_digits with
  | "0"%char :: r => strip0 r
  | _ => rev_digits
  end.

(** Scientific notation of the integer [v >= 10^21] holding the chosen
    digits: [d.ddde+n]. *)
Definition sci (v : Z) : string :=
  let d := dec v in
  let n := String.length d in
  let sig := rev (strip0 (rev (list_ascii_of_string d))) in
  let mant := match sig with
              | [] => "0"
              | c :: [] => String c ""
              | c :: r => String c ("." ++ string_of_list_ascii r)
              end in
  mant ++ "e+" ++ dec (Z.of_nat (n - 1)).

(** [Number::toString] for a finite [x = m * 2^e >= 10^21]: the shortest
    digit string that reads back as [x], the closest one to [x] among
    those of that length.  [k] counts the digits tried, from one up. *)
Fixpoint shortest (fuel k : nat) (m : positive) (e : Z) : string :=
  let X := (Z.pos m * 2 ^ e)%Z in
  match fuel with
  | O => sci X
  | S fuel' =>
      let half := (2 ^ (e - 1))%Z in
      let below := if Pos.eqb m 4503599627370496 then (2 ^ (e - 2))%Z else half in
      let even := Z.even (Z.pos m) in
      let inside v :=
        if even then ((X - below <=? v) && (v <=? X + half))%Z%bool
        else ((X - below <? v) && (v <? X + half))%Z%bool in
      let D := String.length (dec X) in
      let p := (10 ^ Z.of_nat (D - k))%Z in
      let lo := (X / p * p)%Z in
      let hi := (lo + p)%Z in
      match inside lo, inside hi with
      | true, true =>
          if (X - lo <? hi - X)%Z then sci lo
          else if (hi - X <? X - lo)%Z then sci hi
          else if Z.even (X / p) then sci lo else sci hi
      | true, false => sci lo
      | false, true => sci hi
      | false, false => shortest fuel' (S k) m e
      end
  end.

Definition toFixed2 (x : float) : string :=
  match Prim2SF x with
  | S754_nan => "NaN"
  | S754_infinity s => if s then "-Infinity" else "Infinity"
  | S754_zero _ => "0.00"
  | S754_finite s m e =>
      let sign := if s then "-" else "" in
      if (10 ^ 21 <=? Z.pos m * 2 ^ e)%Z
      then sign ++ shortest 17 1 m e
      else sign ++ point2 (hundredths m e)
  end.

End Number.

Local Open Scope list_scope.

(** ** Data model *)

(** A normalized, per-component measure.  The component reads one field of
    it, [totalTimeSpent]. *)
Record Measure : Type := mkMeasure {
  componentName : string;
  totalTimeSpent : float
}.

(** What lies outside the file.  First the raw performance entries, which
    the component stores and hands to the chart without looking inside. *)
Class Raw : Type := {
  RawMeasure : Type
}.

(** Then the two JSON built-ins.  [JSON.stringify] is taken at the type of
    each field of the inspected window's buffer, [JSON.parse] at the type
    that each query's result decodes to ([None] when [JSON.parse]
    throws). *)
Class JSON {R : Raw} : Type := {
  JSON_stringify_length : N -> string;
  JSON_stringify_measures : list Measure -> string;
  JSON_stringify_rawMeasures : list RawMeasure -> string;
  JSON_parse_count : jsval -> option jsval;
  JSON_parse_measures : jsval -> option (list Measure);
  JSON_parse_rawMeasures : jsval -> option (list RawMeasure)
}.

(** The keys of [queries]. *)
Inductive Query : Type :=
| Q_measuresLength
| Q_measures
| Q_rawMeasures
| Q_clear.

Definition queries (q : Query) : string :=
  match q with
  | Q_measuresLength => "JSON.stringify(__REACT_PERF_DEVTOOL_GLOBAL_STORE__.length)"
  | Q_measures => "JSON.stringify(__REACT_PERF_DEVTOOL_GLOBAL_STORE__.measures)"
  | Q_rawMeasures => "JSON.stringify(__REACT_PERF_DEVTOOL_GLOBAL_STORE__.rawMeasures)"
  | Q_clear => "__REACT_PERF_DEVTOOL_GLOBAL_STORE__ = {
          length: 0,
          measures: [],
          rawMeasures: [],
        }"
  end%string.

(** The three callbacks handed to [evaluate]. *)
Inductive Continuation : Type :=
| K_measuresLength
| K_measures
| K_rawMeasures.

(** Interval handles, as [setInterval] returns them: positive integers, so
    [this.timer && ...] is taken exactly when a handle is stored. *)
Definition TimerId : Type := positive.

(** How a method ends: it returns, or an exception leaves it uncaught. *)
Inductive Completion (A : Type) : Type :=
| Normal (a : A)
| Throw (msg : string).
Arguments Normal {A} a.
Arguments Throw {A} msg.

Section Panel.

Context {R : Raw} {J : JSON}.

(** [this.state]. *)
Record State : Type := mkState {
  perfData : list Measure;
  totalTime : jsval;
  pendingEvents : jsval;
  rawMeasures : list RawMeasure;
  loading : bool;
  hasError : bool;
  showChart : bool
}.

Definition set_perfData v (s : State) : State :=
  mkState v (totalTime s) (pendingEvents s) (rawMeasures s) (loading s) (hasError s) (showChart s).
Definition set_totalTime v (s : State) : State :=
  mkState (perfData s) v (pendingEvents s) (rawMeasures s) (loading s) (hasError s) (showChart s).
Definition set_pendingEvents v (s : State) : State :=
  mkState (perfData s) (totalTime s) v (rawMeasures s) (loading s) (hasError s) (showChart s).
Definition set_rawMeasures v (s : State) : State :=
  mkState (perfData s) (totalTime s) (pendingEvents s) v (loading s) (hasError s) (showChart s).
Definition set_loading v (s : State) : State :=
  mkState (perfData s) (totalTime s) (pendingEvents s) (rawMeasures s) v (hasError s) (showChart s).
Definition set_hasError v (s : State) : State :=
  mkState (perfData s) (totalTime s) (pendingEvents s) (rawMeasures s) (loading s) v (showChart s).
Definition set_showChart v (s : State) : State :=
  mkState (perfData s) (totalTime s) (pendingEvents s) (rawMeasures s) (loading s) (hasError s) v.

(** The argument of [drawChart]. *)
Record ChartProps : Type := mkChartProps {
  chart_totalTime : string;
  chart_rawMeasures : list RawMeasure;
  chart_totalComponents : nat
}.

(** Calls that leave the component. *)
Inductive Effect : Type :=
| Evaluate (q : Query) (k : option Continuation)
| InspectedWindowReload
| LocationReload
| SetInterval (id : TimerId) (period : Z)
| ClearInterval (id : TimerId)
| DrawChart (props : ChartProps).

(** The module-level [store], the component instance ([state], [timer])
    and whether React has the instance mounted. *)
Record World : Type := mkWorld {
  store : list Measure;
  state : State;
  timer : option TimerId;
  mounted : bool
}.

(** ** The monad of the methods *)

Definition M (A : Type) : Type := World -> Completion A * World * list Effect.

Definition ret {A} (a : A) : M A := fun w => (Normal a, w, []).

Definition bind {A B} (m : M A) (k : A -> M B) : M B :=
  fun w =>
    match m w with
    | (Normal a, w1, e1) =>
        match k a w1 with (r, w2, e2) => (r, w2, e1 ++ e2) end
    | (Throw msg, w1, e1) => (Throw msg, w1, e1)
    end.

Notation "x <- m ;; k" := (bind m (fun x => k))
  (at level 61, m at next level, right associativity).
Notation "m ;; k" := (bind m (fun _ => k))
  (at level 61, right associativity).

Definition throw {A} (msg : string) : M A := fun w => (Throw msg, w, []).
Definition emit (e : Effect) : M unit := fun w => (Normal tt, w, [e]).
Definition get_store : M (list Measure) := fun w => (Normal (store w), w, []).
Definition put_store (l : list Measure) : M unit :=
  fun w => (Normal tt, mkWorld l (state w) (timer w) (mounted w), []).
Definition get_state : M State := fun w => (Normal (state w), w, []).
Definition get_timer : M (option TimerId) := fun w => (Normal (timer w), w, []).
Definition put_timer (t : option TimerId) : M unit :=
  fun w => (Normal tt, mkWorld (store w) (state w) t (mounted w), []).

(** [this.setState(update)].  React applies the update to a mounted
    instance and ignores it (with a warning) otherwise.  Every caller
    here runs outside React's batching (timer and channel callbacks) or
    reads nothing of [this.state] afterwards, so the update is applied
    at once. *)
Definition setState (update : State -> State) : M unit :=
  fun w =>
    (Normal tt,
     if mounted w then mkWorld (store w) (update (state w)) (timer w) (mounted w) else w,
     []).

(** [JSON.parse(v)] at a given decoder. *)
Definition JSON_parse {A} (decode : jsval -> option A) (v : jsval) : M A :=
  match decode v with
  | Some a => ret a
  | None => throw "SyntaxError"%string
  end.

(** What a handler leaves behind, whether it returned or threw. *)
Definition exec (m : M unit) (w : World) : World * list Effect :=
  match m w with (_, w', effs) => (w', effs) end.

(** ** The methods of [ReactPerfDevtool] *)

(** The state the constructor installs. *)
Definition constructor : State :=
  {| perfData := [];
     totalTime := JNum 0;
     pendingEvents := JNum 0;
     rawMeasures := [];
     loading := false;
     hasError := false;
     showChart := false |}.

Definition evaluate (q : Query) (k : option Continuation) : M unit :=
  emit (Evaluate q k).

Definition reloadInspectedWindow : M unit := emit InspectedWindowReload.

Definition componentWillMount : M unit :=
  st <- get_store ;;
  if Nat.eqb (List.length st) 0 then reloadInspectedWindow else ret tt.

(** [id] is the handle that [setInterval] returns. *)
Definition componentDidMount (id : TimerId) : M unit :=
  setState (set_loading true) ;;
  emit (SetInterval id 2000) ;;
  put_timer (Some id) ;;
  setState (set_showChart true).

Definition componentWillUnmount : M unit :=
  t <- get_timer ;;
  match t with
  | Some id => emit (ClearInterval id)
  | None => ret tt
  end.

(** [drawChart] builds the chart from its argument with code that lies
    outside this file ([getResults] and [computeTotalTime] of [../util],
    the [Graphics] class passed as a prop) and touches neither the store
    nor the state: the call is recorded with its argument. *)
Definition drawChart (props : ChartProps) : M unit := emit (DrawChart props).

Definition setErrorState : M unit :=
  setState (fun s => set_hasError true (set_loading false s)).

Definition getMeasuresLength : M unit :=
  evaluate Q_measuresLength (Some K_measuresLength).

Definition getRawMeasures : M unit :=
  evaluate Q_rawMeasures (Some K_rawMeasures).

Definition getMeasures : M unit :=
  getRawMeasures ;;
  evaluate Q_measures (Some K_measures).

Definition shouldRenderMeasures : M unit :=
  s <- get_state ;;
  if Nat.eqb (List.length (perfData s)) 0 then getMeasures else ret tt.

Definition updateEventsCount (count : jsval) : M unit :=
  setState (fun s => set_pendingEvents count (set_loading false s)) ;;
  shouldRenderMeasures.

(** The callback of [getMeasuresLength]. *)
Definition getMeasuresLength_callback (count : jsval) (err : option ExceptionInfo) : M unit :=
  if truthy_err err || strict_eq count (JNum 0)
  then setErrorState
  else
    parsed <- JSON_parse JSON_parse_count count ;;
    updateEventsCount parsed.

(** The callback of [getRawMeasures]. *)
Definition getRawMeasures_callback (measures : jsval) (err : option ExceptionInfo) : M unit :=
  if truthy_err err
  then setErrorState
  else
    parsed <- JSON_parse JSON_parse_rawMeasures measures ;;
    setState (set_rawMeasures parsed).

Definition clearMeasures : M unit := evaluate Q_clear None.

(** [store.reduce((acc, comp) => acc + comp.totalTimeSpent, 0)]. *)
Definition sumTotalTimeSpent (l : list Measure) : float :=
  fold_left (fun acc comp => (acc + totalTimeSpent comp)%float) l 0%float.

Definition updateMeasures (measures : list Measure) : M unit :=
  st <- get_store ;;
  put_store (st ++ measures) ;;
  st <- get_store ;;
  s <- get_state ;;
  drawChart {| chart_totalTime := Number.toFixed2 (sumTotalTimeSpent st);
               chart_rawMeasures := rawMeasures s;
               chart_totalComponents := List.length st |} ;;
  setState (fun s => set_perfData st
                       (set_totalTime (JStr (Number.toFixed2 (sumTotalTimeSpent st))) s)) ;;
  clearMeasures.

(** The callback of [getMeasures]. *)
Definition getMeasures_callback (measures : jsval) (err : option ExceptionInfo) : M unit :=
  if truthy_err err
  then setErrorState
  else
    parsed <- JSON_parse JSON_parse_measures measures ;;
    updateMeasures parsed.

Definition clear : M unit :=
  put_store [] ;;
  st <- get_store ;;
  setState (fun s => set_perfData st
                       (set_totalTime (JNum 0)
                          (set_rawMeasures []
                             (set_pendingEvents (JNum 0)
                                (set_showChart false s))))) ;;
  clearMeasures ;;
  t <- get_timer ;;
  match t with
  | Some id => emit (ClearInterval id)
  | None => ret tt
  end.

(** [typeof window !== undefined] compares a string with [undefined] and
    is always true: the panel's own page is reloaded. *)
Definition browserReload : M unit := emit LocationReload.

Definition reload : M unit :=
  clear ;;
  browserReload ;;
  setState (set_loading true) ;;
  reloadInspectedWindow.

(** ** The component in its environment *)

(** What can happen to the component: React mounts a fresh instance
    (constructor, [componentWillMount], first render,
    [componentDidMount]) or unmounts it; the interval fires; the channel
    calls a continuation back; the user presses a button. *)
Inductive Event : Type :=
| Mount (id : TimerId)
| Unmount
| Tick
| Deliver (k : Continuation) (result : jsval) (err : option ExceptionInfo)
| ClickClear
| ClickReload.

Definition instantiate : M unit :=
  fun w => (Normal tt, mkWorld (store w) constructor None false, []).

Definition set_mounted (b : bool) : M unit :=
  fun w => (Normal tt, mkWorld (store w) (state w) (timer w) b, []).

Definition resume (k : Continuation) : jsval -> option ExceptionInfo -> M unit :=
  match k with
  | K_measuresLength => getMeasuresLength_callback
  | K_measures => getMeasures_callback
  | K_rawMeasures => getRawMeasures_callback
  end.

Definition handle (e : Event) : M unit :=
  match e with
  | Mount id =>
      instantiate ;; componentWillMount ;; set_mounted true ;; componentDidMount id
  | Unmount => componentWillUnmount ;; set_mounted false
  | Tick => getMeasuresLength
  | Deliver k result err => resume k result err
  | ClickClear => clear
  | ClickReload => reload
  end.

Definition step (w : World) (e : Event) : World * list Effect :=
  exec (handle e) w.

(** A run: the world after the events, and everything emitted. *)
Fixpoint run (w : World) (evs : list Event) : World * list Effect :=
  match evs with
  | [] => (w, [])
  | e :: evs' =>
      let (w1, out1) := step w e in
      let (w2, out2) := run w1 evs' in
      (w2, out1 ++ out2)
  end.

(** The panel's page freshly loaded: an empty store, no instance yet. *)
Definition fresh : World := mkWorld [] constructor None false.

(** *** Reading events *)

Definition is_mount (e : Event) : bool :=
  match e with Mount _ => true | _ => false end.

(** The events that run [clear]: the button itself, and [reload], which
    calls it first. *)
Definition is_clear (e : Event) : bool :=
  match e with ClickClear | ClickReload => true | _ => false end.

(** The batch that an event merges into the store: the parsed result of
    a measures callback that reports no error, nothing otherwise. *)
Definition merged (e : Event) : list Measure :=
  match e with
  | Deliver K_measures v None =>
      match JSON_parse_measures v with
      | Some batch => batch
      | None => []
      end
  | _ => []
  end.

Definition sets_interval (eff : Effect) : bool :=
  match eff with SetInterval _ _ => true | _ => false end.

Definition is_reload (eff : Effect) : bool :=
  match eff with InspectedWindowReload => true | _ => false end.

Definition is_page_reload (eff : Effect) : bool :=
  match eff with LocationReload => true | _ => false end.

(** ** The inspected window *)

(** [__REACT_PERF_DEVTOOL_GLOBAL_STORE__], the buffer that the observed
    application fills. *)
Record Buffer : Type := mkBuffer {
  buf_length : N;
  buf_measures : list Measure;
  buf_rawMeasures : list RawMeasure
}.

Definition empty_buffer : Buffer := mkBuffer 0 [] [].

(** The value of each expression of [queries] in the inspected window,
    and the buffer it leaves.  The three reads go through
    [JSON.stringify] and so yield a string; the assignment of [clear]
    yields nothing that a callback consumes. *)
Definition inspected_eval (q : Query) (b : Buffer) : Buffer * jsval :=
  match q with
  | Q_measuresLength => (b, JStr (JSON_stringify_length (buf_length b)))
  | Q_measures => (b, JStr (JSON_stringify_measures (buf_measures b)))
  | Q_rawMeasures => (b, JStr (JSON_stringify_rawMeasures (buf_rawMeasures b)))
  | Q_clear => (empty_buffer, JUndefined)
  end.

(** The observed application records one more measure and its raw
    entries.  How the application fills its buffer is its own business;
    the runs below only need that it can add to it. *)
Definition record_measure (m : Measure) (raw : list RawMeasure) (b : Buffer) : Buffer :=
  mkBuffer (buf_length b + 1) (buf_measures b ++ [m]) (buf_rawMeasures b ++ raw).

Definition record_all (news : list (Measure * list RawMeasure)) (b : Buffer) : Buffer :=
  fold_left (fun b x => record_measure (fst x) (snd x) b) news b.

(** ** The closed system *)

(** The component together with what surrounds it: the buffer, the
    intervals that are set, the evaluations issued and not yet answered,
    whether the panel's page has been told to reload, and the calls made
    so far, in order. *)
Record Sys : Type := mkSys {
  world : World;
  buffer : Buffer;
  intervals : list TimerId;
  requests : list (Query * option Continuation);
  next_timer : TimerId;
  reloading : bool;
  log : list Effect
}.

Definition boot (b : Buffer) : Sys := mkSys fresh b [] [] 1%positive false [].

Definition with_world (s : Sys) (w : World) : Sys :=
  mkSys w (buffer s) (intervals s) (requests s) (next_timer s) (reloading s) (log s).

Definition with_buffer (s : Sys) (b : Buffer) : Sys :=
  mkSys (world s) b (intervals s) (requests s) (next_timer s) (reloading s) (log s).

Definition with_intervals (s : Sys) (l : list TimerId) : Sys :=
  mkSys (world s) (buffer s) l (requests s) (next_timer s) (reloading s) (log s).

Definition with_requests (s : Sys) (r : list (Query * option Continuation)) : Sys :=
  mkSys (world s) (buffer s) (intervals s) r (next_timer s) (reloading s) (log s).

Definition logged (s : Sys) (eff : Effect) : Sys :=
  mkSys (world s) (buffer s) (intervals s) (requests s) (next_timer s) (reloading s)
        (log s ++ [eff]).

(** What a call does to the surroundings: an evaluation joins the
    outstanding requests, an interval is set or cleared,
    [window.location.reload()] condemns the panel's page. *)
Definition absorb1 (s : Sys) (eff : Effect) : Sys :=
  let s := logged s eff in
  match eff with
  | Evaluate q k => with_requests s (requests s ++ [(q, k)])
  | SetInterval id _ =>
      mkSys (world s) (buffer s) (id :: intervals s) (requests s)
            (Pos.succ (next_timer s)) (reloading s) (log s)
  | ClearInterval id =>
      with_intervals s (filter (fun i => negb (Pos.eqb i id)) (intervals s))
  | LocationReload =>
      mkSys (world s) (buffer s) (intervals s) (requests s) (next_timer s) true (log s)
  | InspectedWindowReload | DrawChart _ => s
  end.

Definition absorb (s : Sys) (out : list Effect) : Sys := fold_left absorb1 out s.

(** A handler runs, then its calls take effect. *)
Definition fire (s : Sys) (e : Event) : Sys :=
  let (w, out) := step (world s) e in absorb (with_world s w) out.

Fixpoint remove_nth {A} (i : nat) (l : list A) : list A :=
  match i, l with
  | _, [] => []
  | O, _ :: r => r
  | S j, x :: r => x :: remove_nth j r
  end.

Definition buttons_shown (w : World) : bool :=
  mounted w && negb (loading (state w)).

Definition timer_live (s : Sys) : bool :=
  match timer (world s) with
  | Some id => existsb (Pos.eqb id) (intervals s)
  | None => false
  end.

(** What the surroundings can do. *)
Inductive Action : Type :=
| A_mount
| A_unmount
| A_tick
| A_answer (i : nat)
| A_fail (i : nat) (e : ExceptionInfo)
| A_record (m : Measure) (raw : list RawMeasure)
| A_clear
| A_reload
| A_load.

(** One action, [None] when it cannot happen in [s]: React mounts only
    an unmounted component; the interval fires only while set; only an
    outstanding request is answered (evaluated in the inspected window,
    its continuation called back) or failed; the buttons are pressed
    only when [render] shows them; the panel's page loads anew, its
    module state, intervals and pending callbacks gone, only after it was
    told to reload.

    An outstanding request does not record the instance that issued it:
    its continuation runs on the instance of [world].  As long as no
    request outlives its instance this is the source's [this].  Where a
    request is answered after its instance was unmounted and another
    mounted, the source calls back the old instance, whose [setState] is
    ignored and whose append to the store is not; here the callback
    reaches the new instance.  What relates the state on display to the
    store along whole runs is therefore stated of runs without
    [A_unmount]. *)
Definition act (s : Sys) (a : Action) : option Sys :=
  match a with
  | A_mount =>
      if mounted (world s) then None else Some (fire s (Mount (next_timer s)))
  | A_unmount =>
      if mounted (world s) then Some (fire s Unmount) else None
  | A_tick =>
      if timer_live s then Some (fire s Tick) else None
  | A_answer i =>
      match nth_error (requests s) i with
      | Some (q, k) =>
          let (b, v) := inspected_eval q (buffer s) in
          let s1 := with_buffer (with_requests s (remove_nth i (requests s))) b in
          Some (match k with
                | Some k => fire s1 (Deliver k v None)
                | None => s1
                end)
      | None => None
      end
  | A_fail i e =>
      match nth_error (requests s) i with
      | Some (q, k) =>
          let s1 := with_requests s (remove_nth i (requests s)) in
          Some (match k with
                | Some k => fire s1 (Deliver k JUndefined (Some e))
                | None => s1
                end)
      | None => None
      end
  | A_record m raw =>
      Some (with_buffer s (record_measure m raw (buffer s)))
  | A_clear =>
      if buttons_shown (world s) then Some (fire s ClickClear) else None
  | A_reload =>
      if buttons_shown (world s) then Some (fire s ClickReload) else None
  | A_load =>
      if reloading s
      then Some (mkSys fresh (buffer s) [] [] (next_timer s) false (log s))
      else None
  end.

Definition mounts (a : Action) : bool :=
  match a with A_mount => true | _ => false end.

Fixpoint acts (s : Sys) (l : list Action) : option Sys :=
  match l with
  | [] => Some s
  | a :: r =>
      match act s a with
      | Some s1 => acts s1 r
      | None => None
      end
  end.

End Panel.

(** ** A sample codec

    [JSON.stringify] and [JSON.parse] on the values that the examples
    below exchange: buffer lengths as decimal digits, and a table of
    measure and raw-entry lists (the texts are written without the
    quotation marks of JSON). *)
Module Sample.

Record Entry : Type := mkEntry {
  entry_name : string;
  entry_duration : float
}.

Definition app : Measure := mkMeasure "App" 1.5.
Definition row : Measure := mkMeasure "Row" 2.5.
Definition paint : Entry := mkEntry "(Committing Changes)" 0.5.

Definition Measure_eqb (a b : Measure) : bool :=
  String.eqb (componentName a) (componentName b)
  && PrimFloat.eqb (totalTimeSpent a) (totalTimeSpent b).

Definition Entry_eqb (a b : Entry) : bool :=
  String.eqb (entry_name a) (entry_name b)
  && PrimFloat.eqb (entry_duration a) (entry_duration b).

(** Two lists agree when they are as long and agree position by
    position. *)
Definition same_list {A} (same : A -> A -> bool) (xs ys : list A) : bool :=
  Nat.eqb (List.length xs) (List.length ys)
  && forallb (fun p => same (fst p) (snd p)) (combine xs ys).

Definition measures_table : list (string * list Measure) :=
  [ ("[]", []);
    ("[{componentName:App,totalTimeSpent:1.5}]", [app]);
    ("[{componentName:Row,totalTimeSpent:2.5}]", [row]);
    ("[{componentName:App,totalTimeSpent:1.5},{componentName:Row,totalTimeSpent:2.5}]",
     [app; row]) ]%string.

Definition rawMeasures_table : list (string * list Entry) :=
  [ ("[]", []);
    ("[{name:(Committing Changes),duration:0.5}]", [paint]) ]%string.

Fixpoint text_of {A} (eqb : A -> A -> bool) (table : list (string * A)) (a : A) : string :=
  match table with
  | [] => "?"%string
  | (t, b) :: r => if eqb a b then t else text_of eqb r a
  end.

Fixpoint value_of {A} (table : list (string * A)) (t : string) : option A :=
  match table with
  | [] => None
  | (u, b) :: r => if String.eqb t u then Some b else value_of r t
  end.

(** [JSON.parse] of an integer literal: decimal digits with no leading
    zero, read as the nearest float. *)
Definition parse_count (v : jsval) : option jsval :=
  match v with
  | JStr s =>
      match s, NilZero.uint_of_string s with
      | String "0" (String _ _), _ => None
      | _, Some u => Some (JNum (SF2Prim (binary_normalize prec emax (Z.of_N (N.of_uint u)) 0 false)))
      | _, None => None
      end
  | JNum x => if is_finite x then Some (JNum x) else None
  | JUndefined => None
  end.

Definition parse_text {A} (table : list (string * A)) (v : jsval) : option A :=
  match v with
  | JStr s => value_of table s
  | _ => None
  end.

#[global] Instance raw : Raw := {| RawMeasure := Entry |}.

#[global] Instance json : JSON := {|
  JSON_stringify_length := fun n => Number.dec (Z.of_N n);
  JSON_stringify_measures := text_of (same_list Measure_eqb) measures_table;
  JSON_stringify_rawMeasures := text_of (same_list Entry_eqb) rawMeasures_table;
  JSON_parse_count := parse_count;
  JSON_parse_measures := parse_text measures_table;
  JSON_parse_rawMeasures := parse_text rawMeasures_table
|}.

(** A buffer holding one measure and its raw entry. *)
Definition one_measure : Buffer := record_measure app [paint] empty_buffer.

(** The panel just mounted on a fresh page, and then unmounted. *)
Definition polling : World := fst (step fresh (Mount 1%positive)).
Definition unmounted : World := fst (step polling Unmount).

(** The text that the measures query yields for a list of measures. *)
Definition wire (l : list Measure) : jsval := JStr (JSON_stringify_measures l).

(** The panel mounts on a fresh page and the observed application records
    a measure. *)
Definition start : list Action := [A_mount; A_record app [paint]].

(** One poll cycle from start to end, each request answered in the order
    it was issued: tick, length, raw measures, measures, reset. *)
Definition cycle : list Action :=
  [A_tick; A_answer 0; A_answer 0; A_answer 0; A_answer 0].

End Sample.

(** ** The chart and the view *)

(** What [getResults] returns, as far as this file reads it. *)
Record Results : Type := mkResults {
  totalEffects : jsval;
  hostEffectsTime : jsval;
  commitChangesTime : jsval;
  totalLifecycleMethods : jsval;
  lifecycleTime : jsval
}.

(** What the file imports and does not define: the [theme], the two
    functions of [../util] ([computeTotalTime] receives the [totalTime] of
    the chart's props, which [updateMeasures] passes as a string, and
    yields the number on which [toFixed] is called), and the conversion to
    a string that a template literal applies to a value. *)
Class Imports {R : Raw} : Type := {
  theme : string;
  getResults : list RawMeasure -> Results;
  computeTotalTime : list RawMeasure -> string -> float;
  ToString : jsval -> string
}.

Section Presentation.

Context {R : Raw} {J : JSON} {I : Imports}.

(** The object that [getChartData] returns. *)
Record ChartData : Type := mkChartData {
  cd_totalEffects : jsval;
  cd_hostEffects : jsval;
  cd_commitChanges : jsval;
  cd_totalLifecycleMethods : jsval;
  cd_lifecycleTime : jsval;
  cd_totalTime : string;
  cd_totalComponents : nat
}.

Definition getChartData (props : ChartProps) : ChartData :=
  {| cd_totalEffects := totalEffects (getResults (chart_rawMeasures props));
     cd_hostEffects := hostEffectsTime (getResults (chart_rawMeasures props));
     cd_commitChanges := commitChangesTime (getResults (chart_rawMeasures props));
     cd_totalLifecycleMethods := totalLifecycleMethods (getResults (chart_rawMeasures props));
     cd_lifecycleTime := lifecycleTime (getResults (chart_rawMeasures props));
     cd_totalTime :=
       Number.toFixed2 (computeTotalTime (chart_rawMeasures props) (chart_totalTime props));
     cd_totalComponents := chart_totalComponents props |}.

(** The configuration handed to the chart constructor. *)
Record Dataset : Type := mkDataset {
  ds_data : list jsval;
  ds_backgroundColor : list string
}.

Record ChartConfig : Type := mkChartConfig {
  config_type : string;
  config_datasets : list Dataset;
  config_labels : list string;
  config_responsive : bool;
  config_maintainAspectRatio : bool
}.

(** [v === 0 || v === 1]. *)
Definition zero_or_one (v : jsval) : bool :=
  strict_eq v (JNum 0) || strict_eq v (JNum 1).

(** [totalComponents] is the length of an array, an integer below [2^32]
    whose string is its decimal digits. *)
Definition chartOptions (d : ChartData) : ChartConfig :=
  {| config_type := "doughnut";
     config_datasets :=
       [ {| ds_data := [JStr (cd_totalTime d); cd_commitChanges d; cd_hostEffects d;
                        cd_lifecycleTime d];
            ds_backgroundColor := ["#ff9999"; "#99ffdd"; "#d98cb3"; "#ffff4d"] |} ];
     config_labels :=
       [ Number.dec (Z.of_nat (cd_totalComponents d)) ++ " "
           ++ (if Nat.eqb (cd_totalComponents d) 0 || Nat.eqb (cd_totalComponents d) 1
               then "component" else "components")
           ++ " (ms)";
         "Committing changes (ms)";
         "Committing " ++ ToString (cd_totalEffects d) ++ " host "
           ++ (if zero_or_one (cd_totalEffects d) then "effect" else "effects")
           ++ " (ms)";
         "Calling " ++ ToString (cd_totalLifecycleMethods d) ++ " "
           ++ (if zero_or_one (cd_totalLifecycleMethods d)
               then "lifecycle hook" else "lifecycle hooks")
           ++ " (ms)" ];
     config_responsive := false;
     config_maintainAspectRatio := false |}%string.

(** What a recorded [drawChart] call gives the chart constructor. *)
Definition chart_config (props : ChartProps) : ChartConfig :=
  chartOptions (getChartData props).

(** What [render] returns: the loader, or the panel with its two buttons,
    the count of pending events and either the error component or the
    three components that show the measures. *)
Inductive Body : Type :=
| ErrorComponent
| Fragment (Metrics_measures : list Measure) (Stats_showChart : bool)
    (Stats_totalTime : jsval) (Measures_measures : list Measure).

Inductive View : Type :=
| Loader (dark : bool)
| Panel (dark : bool) (pending : jsval) (body : Body).

Definition render (s : State) : View :=
  if loading s
  then Loader (String.eqb theme "dark")
  else Panel (String.eqb theme "dark") (pendingEvents s)
         (if hasError s
          then ErrorComponent
          else Fragment (perfData s) (showChart s) (totalTime s) (perfData s)).

(** *** Reading views, states and actions *)

Definition shown_measures (v : View) : option (list Measure) :=
  match v with
  | Panel _ _ (Fragment ms _ _ _) => Some ms
  | _ => None
  end.

Definition offers_buttons (v : View) : bool :=
  match v with Panel _ _ _ => true | Loader _ => false end.

(** The total on display belongs to the measures on display. *)
Definition total_matches (s : State) : Prop :=
  (perfData s = [] /\ totalTime s = JNum 0)
  \/ totalTime s = JStr (Number.toFixed2 (sumTotalTimeSpent (perfData s))).

(** The measures on display are the front of the store, and all of it or
    nothing while the instance is mounted. *)
Definition shows_store (w : World) : Prop :=
  (exists rest : list Measure, store w = perfData (state w) ++ rest)
  /\ (mounted w = true -> perfData (state w) = [] \/ perfData (state w) = store w).

(** At most one interval is set, the one whose handle the mounted
    instance holds. *)
Definition one_interval (s : Sys) : Prop :=
  intervals s = []
  \/ (mounted (world s) = true
      /\ exists id : TimerId, timer (world s) = Some id /\ intervals s = [id]).

(** What a call does to the intervals that are set. *)
Definition after_call (l : list TimerId) (eff : Effect) : list TimerId :=
  match eff with
  | SetInterval id _ => id :: l
  | ClearInterval id => filter (fun i => negb (Pos.eqb i id)) l
  | _ => l
  end.

Definition draws (eff : Effect) : bool :=
  match eff with DrawChart _ => true | _ => false end.


Definition unmounts (a : Action) : bool :=
  match a with A_unmount => true | _ => false end.

Definition is_failure (a : Action) : bool :=
  match a with A_fail _ _ => true | _ => false end.

Definition record_action (x : Measure * list RawMeasure) : Action :=
  A_record (fst x) (snd x).

End Presentation.

(** Sample imports: the dark theme, results that count the raw entries
    and add their durations, a total that is the sum of the raw
    durations, and the string conversion on the values the examples
    use (strings and small counts). *)
Module SampleImports.

Definition count_of (n : nat) : jsval :=
  JNum (SF2Prim (binary_normalize prec emax (Z.of_nat n) 0 false)).

Definition durations (l : list Sample.Entry) : float :=
  fold_left (fun acc e => (acc + Sample.entry_duration e)%float) l 0%float.

Definition results (l : list Sample.Entry) : Results :=
  {| totalEffects := count_of (List.length l);
     hostEffectsTime := JNum (durations l);
     commitChangesTime := JNum (durations l);
     totalLifecycleMethods := count_of 0;
     lifecycleTime := JNum 0 |}.

Definition to_string (v : jsval) : string :=
  match v with
  | JUndefined => "undefined"
  | JStr s => s
  | JNum x =>
      match Prim2SF x with
      | S754_zero _ => "0"
      | S754_finite false m e =>
          if (0 <=? e)%Z then Number.dec (Z.pos m * 2 ^ e)
          else Number.dec (Z.pos m / 2 ^ (- e))
      | _ => "NaN"
      end
  end%string.

#[global] Instance imports : Imports := {|
  theme := "dark";
  getResults := results;
  computeTotalTime := fun raw total => durations raw;
  ToString := to_string
|}.

(** The closed system after the mount, one record and one whole poll
    cycle; with the length query answered and the two fetches still
    outstanding; with two ticks passed and both length queries answered,
    the fetches of both polls outstanding; and a mounted panel whose
    length query has failed. *)
Definition settled : Sys :=
  match acts (boot empty_buffer) (Sample.start ++ Sample.cycle) with
  | Some s => s
  | None => boot empty_buffer
  end.

Definition fetching : Sys :=
  match acts (boot empty_buffer) (Sample.start ++ [A_tick; A_answer 0]) with
  | Some s => s
  | None => boot empty_buffer
  end.

Definition overlapping : Sys :=
  match acts (boot empty_buffer) (Sample.start ++ [A_tick; A_tick; A_answer 0; A_answer 0]) with
  | Some s => s
  | None => boot empty_buffer
  end.

Definition failed : World :=
  fst (step Sample.polling (Deliver K_measuresLength JUndefined (Some "not ready"%string))).

End SampleImports.

(** * Properties *)

(** ** [toFixed(2)] on sample values *)

Example toFixed2_4 : Number.toFixed2 4 = "4.00".
Proof. vm_compute. reflexivity. Qed.

Example toFixed2_half_up : Number.toFixed2 0.125 = "0.13".
Proof. vm_compute. reflexivity. Qed.

Example toFixed2_binary : Number.toFixed2 1.005 = "1.00".
Proof. vm_compute. reflexivity. Qed.

Example toFixed2_negative : Number.toFixed2 (-2.5) = "-2.50".
Proof. vm_compute. reflexivity. Qed.

Example toFixed2_small_negative : Number.toFixed2 (-0.001) = "-0.00".
Proof. vm_compute. reflexivity. Qed.

Example toFixed2_large : Number.toFixed2 1e21 = "1e+21".
Proof. vm_compute. reflexivity. Qed.

Section PanelFacts.

Context {R : Raw} {J : JSON}.

Ltac unfold_methods :=
  unfold step, exec, handle, resume, reload, clear, browserReload,
    getMeasures_callback, getRawMeasures_callback, getMeasuresLength_callback,
    updateMeasures, updateEventsCount, shouldRenderMeasures, getMeasures,
    getRawMeasures, getMeasuresLength, clearMeasures, setErrorState, drawChart,
    componentWillUnmount, componentDidMount, componentWillMount,
    reloadInspectedWindow, evaluate, instantiate, set_mounted, JSON_parse,
    bind, ret, throw, emit, get_store, put_store, get_state, get_timer,
    put_timer, setState.

Ltac run_methods := unfold_methods; cbn.

(** *** What each callback does *)

Lemma step_callback_error (w : World) (k : Continuation) (v : jsval) (e : ExceptionInfo) :
  step w (Deliver k v (Some e)) =
  (if mounted w
   then mkWorld (store w) (set_hasError true (set_loading false (state w))) (timer w) (mounted w)
   else w, []).
Proof. destruct k; run_methods; destruct (mounted w); reflexivity. Qed.

Lemma step_length_zero (w : World) (v : jsval) :
  strict_eq v (JNum 0) = true ->
  step w (Deliver K_measuresLength v None) =
  (if mounted w
   then mkWorld (store w) (set_hasError true (set_loading false (state w))) (timer w) (mounted w)
   else w, []).
Proof. intros Hz; run_methods; rewrite Hz; cbn; destruct (mounted w); reflexivity. Qed.

Lemma step_length_throw (w : World) (v : jsval) :
  strict_eq v (JNum 0) = false ->
  JSON_parse_count v = None ->
  step w (Deliver K_measuresLength v None) = (w, []).
Proof. intros Hz Hp; run_methods; rewrite Hz, Hp; reflexivity. Qed.

Lemma step_length_ok (w : World) (v parsed : jsval) :
  strict_eq v (JNum 0) = false ->
  JSON_parse_count v = Some parsed ->
  step w (Deliver K_measuresLength v None) =
  (if mounted w
   then mkWorld (store w) (set_pendingEvents parsed (set_loading false (state w)))
                (timer w) (mounted w)
   else w,
   match perfData (state w) with
   | [] => [Evaluate Q_rawMeasures (Some K_rawMeasures); Evaluate Q_measures (Some K_measures)]
   | _ :: _ => []
   end).
Proof.
  intros Hz Hp; run_methods; rewrite Hz, Hp; cbn.
  destruct (mounted w); cbn; destruct (perfData (state w)); reflexivity.
Qed.

Lemma step_raw_ok (w : World) (v : jsval) (parsed : list RawMeasure) :
  JSON_parse_rawMeasures v = Some parsed ->
  step w (Deliver K_rawMeasures v None) =
  (if mounted w
   then mkWorld (store w) (set_rawMeasures parsed (state w)) (timer w) (mounted w)
   else w, []).
Proof. intros Hp; run_methods; rewrite Hp; cbn; destruct (mounted w); reflexivity. Qed.

Lemma step_raw_throw (w : World) (v : jsval) :
  JSON_parse_rawMeasures v = None ->
  step w (Deliver K_rawMeasures v None) = (w, []).
Proof. intros Hp; run_methods; rewrite Hp; reflexivity. Qed.

Lemma step_measures_throw (w : World) (v : jsval) :
  JSON_parse_measures v = None ->
  step w (Deliver K_measures v None) = (w, []).
Proof. intros Hp; run_methods; rewrite Hp; reflexivity. Qed.

Lemma step_measures_ok (w : World) (v : jsval) (batch : list Measure) :
  JSON_parse_measures v = Some batch ->
  step w (Deliver K_measures v None) =
  (let st := store w ++ batch in
   let total := Number.toFixed2 (sumTotalTimeSpent st) in
   if mounted w
   then mkWorld st (set_perfData st (set_totalTime (JStr total) (state w)))
                (timer w) (mounted w)
   else mkWorld st (state w) (timer w) (mounted w),
   [DrawChart (mkChartProps (Number.toFixed2 (sumTotalTimeSpent (store w ++ batch)))
                            (rawMeasures (state w))
                            (List.length (store w ++ batch)));
    Evaluate Q_clear None]).
Proof.
  intros Hp; run_methods; rewrite Hp; cbn.
  destruct (mounted w); reflexivity.
Qed.

Lemma step_tick (w : World) :
  step w Tick = (w, [Evaluate Q_measuresLength (Some K_measuresLength)]).
Proof. reflexivity. Qed.

Lemma step_clear (w : World) :
  step w ClickClear =
  (if mounted w
   then mkWorld [] (set_perfData []
                      (set_totalTime (JNum 0)
                         (set_rawMeasures []
                            (set_pendingEvents (JNum 0)
                               (set_showChart false (state w))))))
                (timer w) (mounted w)
   else mkWorld [] (state w) (timer w) (mounted w),
   Evaluate Q_clear None ::
   match timer w with
   | Some id => [ClearInterval id]
   | None => []
   end).
Proof. destruct w as [st s [id|] [|]]; reflexivity. Qed.

Lemma step_mount (w : World) (id : TimerId) :
  step w (Mount id) =
  (mkWorld (store w) (set_showChart true (set_loading true constructor)) (Some id) true,
   (if Nat.eqb (List.length (store w)) 0 then [InspectedWindowReload] else [])
     ++ [SetInterval id 2000]).
Proof. run_methods; destruct (Nat.eqb (List.length (store w)) 0); reflexivity. Qed.

Lemma step_unmount (w : World) :
  step w Unmount =
  (mkWorld (store w) (state w) (timer w) false,
   match timer w with
   | Some id => [ClearInterval id]
   | None => []
   end).
Proof. destruct w as [st s [id|] m]; reflexivity. Qed.

Lemma step_reload (w : World) :
  step w ClickReload =
  (if mounted w
   then mkWorld [] (set_loading true
                      (set_perfData []
                         (set_totalTime (JNum 0)
                            (set_rawMeasures []
                               (set_pendingEvents (JNum 0)
                                  (set_showChart false (state w)))))))
                (timer w) (mounted w)
   else mkWorld [] (state w) (timer w) (mounted w),
   Evaluate Q_clear None ::
   match timer w with
   | Some id => [ClearInterval id]
   | None => []
   end ++ [LocationReload; InspectedWindowReload]).
Proof. destruct w as [st s [id|] [|]]; reflexivity. Qed.

(** Every callback, in one of its four outcomes. *)
Ltac callback_cases w k v err :=
  destruct err as [e|];
  [ rewrite (step_callback_error w k v e)
  | destruct k;
    [ destruct (strict_eq v (JNum 0)) eqn:Hzero;
      [ rewrite (step_length_zero w v Hzero)
      | destruct (JSON_parse_count v) as [parsed|] eqn:Hparse;
        [ rewrite (step_length_ok w v parsed Hzero Hparse)
        | rewrite (step_length_throw w v Hzero Hparse) ] ]
    | destruct (JSON_parse_measures v) as [batch|] eqn:Hparse;
      [ rewrite (step_measures_ok w v batch Hparse)
      | rewrite (step_measures_throw w v Hparse) ]
    | destruct (JSON_parse_rawMeasures v) as [parsed|] eqn:Hparse;
      [ rewrite (step_raw_ok w v parsed Hparse)
      | rewrite (step_raw_throw w v Hparse) ] ] ].

(** The store after one event: [clear] empties it, a successful measures
    callback appends its batch, nothing else touches it. *)
Lemma store_step (w : World) (e : Event) :
  store (fst (step w e)) = if is_clear e then [] else store w ++ merged e.
Proof.
  destruct e as [id| | |k v err| |].
  - rewrite step_mount; cbn; now rewrite app_nil_r.
  - rewrite step_unmount; cbn; now rewrite app_nil_r.
  - rewrite step_tick; cbn; now rewrite app_nil_r.
  - cbn [is_clear].
    callback_cases w k v err; cbn [fst store merged];
      try rewrite Hparse; try (destruct k); try (destruct (mounted w));
      cbn; now rewrite ?app_nil_r.
  - rewrite step_clear; destruct (mounted w); reflexivity.
  - rewrite step_reload; destruct (mounted w); reflexivity.
Qed.

(** No method assigns [hasError: false]: within the life of an instance
    the flag never goes back. *)
Lemma hasError_sticky (w : World) (e : Event) :
  is_mount e = false ->
  hasError (state w) = true ->
  hasError (state (fst (step w e))) = true.
Proof.
  intros Hm He.
  destruct e as [id| | |k v err| |]; try discriminate Hm.
  - rewrite step_unmount; exact He.
  - rewrite step_tick; exact He.
  - callback_cases w k v err; destruct (mounted w); cbn; auto.
  - rewrite step_clear; destruct (mounted w); cbn; auto.
  - rewrite step_reload; destruct (mounted w); cbn; auto.
Qed.

(** *** The error flag *)

Lemma successful_poll_keeps_hasError_aux (w : World) (count : jsval) :
  strict_eq count (JNum 0) = false ->
  hasError (state (fst (step w (Deliver K_measuresLength count None))))
  = hasError (state w).
Proof.
  intros Hzero.
  destruct (JSON_parse_count count) as [parsed|] eqn:Hparse.
  - rewrite (step_length_ok w count parsed Hzero Hparse).
    destruct (mounted w); reflexivity.
  - rewrite (step_length_throw w count Hzero Hparse); reflexivity.
Qed.

(** C1, as the code has it.  A length poll that succeeds (no error
    reported, and a count that is not the number zero) leaves [hasError]
    exactly as it found it: [updateEventsCount] sets [pendingEvents] and
    [loading] only.  The flag is not reset by any other method either:
    once true it stays true through every event but the mounting of a
    new instance. *)
Theorem successful_poll_keeps_hasError (w : World) (count : jsval) :
  strict_eq count (JNum 0) = false ->
  hasError (state (fst (step w (Deliver K_measuresLength count None))))
  = hasError (state w)
  /\ (forall (w0 : World) (e : Event),
         is_mount e = false ->
         hasError (state w0) = true ->
         hasError (state (fst (step w0 e))) = true).
Proof.
  intros Hzero; split.
  - now apply successful_poll_keeps_hasError_aux.
  - exact hasError_sticky.
Qed.

(** C6.  When the callback of the length query reports an error, a
    mounted panel changes [hasError] to true and [loading] to false and
    nothing else: the other fields of the state, the store and the timer
    are as before, no call leaves the component (so the interval stays
    set), and the next tick issues the length query again. *)
Theorem length_error_only_sets_error_flags
    (w : World) (count : jsval) (e : ExceptionInfo) :
  mounted w = true ->
  let w' := fst (step w (Deliver K_measuresLength count (Some e))) in
  let out := snd (step w (Deliver K_measuresLength count (Some e))) in
  hasError (state w') = true
  /\ loading (state w') = false
  /\ state w' = set_hasError true (set_loading false (state w))
  /\ perfData (state w') = perfData (state w)
  /\ totalTime (state w') = totalTime (state w)
  /\ pendingEvents (state w') = pendingEvents (state w)
  /\ rawMeasures (state w') = rawMeasures (state w)
  /\ showChart (state w') = showChart (state w)
  /\ store w' = store w
  /\ timer w' = timer w
  /\ mounted w' = mounted w
  /\ out = []
  /\ (forall s : Sys,
         world s = w ->
         intervals (fire s (Deliver K_measuresLength count (Some e))) = intervals s
         /\ timer_live (fire s (Deliver K_measuresLength count (Some e))) = timer_live s)
  /\ snd (step w' Tick) = [Evaluate Q_measuresLength (Some K_measuresLength)].
Proof.
  intros Hm w' out; subst w' out.
  rewrite (step_callback_error w K_measuresLength count e), Hm; cbn.
  split_all; auto.
  intros s Hs; unfold timer_live; rewrite Hs, Hm.
  split; reflexivity.
Qed.

(** C10.  The length query goes through [JSON.stringify], so what the
    channel delivers is a string, and a string is never strictly equal
    to the number [0]: the [count === 0] half of the guard is dead.  On
    a length poll the error state is entered exactly when the channel
    reports an error, whatever the length of the buffer, zero
    included. *)
Theorem zero_count_branch_is_dead
    (w : World) (buf : Buffer) (err : option ExceptionInfo) :
  let count := snd (inspected_eval Q_measuresLength buf) in
  count = JStr (JSON_stringify_length (buf_length buf))
  /\ (forall t : string, strict_eq (JStr t) (JNum 0) = false)
  /\ (forall v : jsval, strict_eq v (JNum 0) = true -> exists x : float, v = JNum x)
  /\ (truthy_err err || strict_eq count (JNum 0)) = truthy_err err
  /\ hasError (state (fst (step w (Deliver K_measuresLength count err))))
     = hasError (state w) || (mounted w && truthy_err err).
Proof.
  cbn zeta; cbn [inspected_eval snd strict_eq].
  split_all; auto.
  - intros [|x|t] Hv; try discriminate Hv; now exists x.
  - now rewrite orb_false_r.
  - set (count := JStr _).
    assert (Hzero : strict_eq count (JNum 0) = false) by reflexivity.
    destruct err as [e|].
    + rewrite (step_callback_error w K_measuresLength count e).
      destruct (mounted w); cbn; now rewrite ?orb_true_r, ?orb_false_r.
    + destruct (JSON_parse_count count) as [parsed|] eqn:Hparse.
      * rewrite (step_length_ok w count parsed Hzero Hparse).
        destruct (mounted w); cbn; now rewrite ?orb_false_r.
      * rewrite (step_length_throw w count Hzero Hparse).
        cbn; now rewrite andb_false_r, orb_false_r.
Qed.

(** *** Reload and fetch *)

(** Whether the inspected window is reloaded is decided in
    [componentWillMount], by the local store alone: a mount reloads
    exactly when the store is empty.  No tick and no callback ever
    reloads.  A length poll answered by the buffer, of length zero or
    not, leaves [hasError] as it was. *)
Lemma reload_only_at_mount (w : World) (id : TimerId) (buf : Buffer) :
  snd (step w (Mount id))
  = (if Nat.eqb (List.length (store w)) 0 then [InspectedWindowReload] else [])
      ++ [SetInterval id 2000]
  /\ existsb is_reload (snd (step w (Mount id))) = Nat.eqb (List.length (store w)) 0
  /\ existsb is_reload (snd (step w Tick)) = false
  /\ (forall (k : Continuation) (v : jsval) (err : option ExceptionInfo),
         existsb is_reload (snd (step w (Deliver k v err))) = false)
  /\ hasError (state (fst (step w (Deliver K_measuresLength
                                      (snd (inspected_eval Q_measuresLength buf)) None))))
     = hasError (state w).
Proof.
  rewrite step_mount; cbn [snd].
  split_all.
  - reflexivity.
  - destruct (Nat.eqb (List.length (store w)) 0); reflexivity.
  - reflexivity.
  - intros k v err.
    callback_cases w k v err; cbn; try reflexivity.
    destruct (perfData (state w)); reflexivity.
  - apply successful_poll_keeps_hasError_aux; reflexivity.
Qed.

(** C3, as the code has it.  A tick issues the length query and nothing
    else.  When its callback reports no error (and the count passes the
    guard and parses), the two fetches are issued only if
    [this.state.perfData] is empty; otherwise the poll updates
    [pendingEvents] and [loading] and fetches nothing.  Either way the
    poll itself leaves the store alone: the merge is done by the
    callback of the measures query, which appends the parsed batch. *)
Theorem fetch_is_gated_by_perfData
    (w : World) (count parsed v : jsval) (batch : list Measure) :
  strict_eq count (JNum 0) = false ->
  JSON_parse_count count = Some parsed ->
  JSON_parse_measures v = Some batch ->
  snd (step w Tick) = [Evaluate Q_measuresLength (Some K_measuresLength)]
  /\ snd (step w (Deliver K_measuresLength count None))
     = (if Nat.eqb (List.length (perfData (state w))) 0
        then [Evaluate Q_rawMeasures (Some K_rawMeasures);
              Evaluate Q_measures (Some K_measures)]
        else [])
  /\ store (fst (step w (Deliver K_measuresLength count None))) = store w
  /\ perfData (state (fst (step w (Deliver K_measuresLength count None))))
     = perfData (state w)
  /\ store (fst (step w (Deliver K_measures v None))) = store w ++ batch.
Proof.
  intros Hzero Hcount Hbatch.
  rewrite (step_length_ok w count parsed Hzero Hcount).
  rewrite (step_measures_ok w v batch Hbatch).
  split_all.
  - reflexivity.
  - cbn [snd]; destruct (perfData (state w)); reflexivity.
  - destruct (mounted w); reflexivity.
  - destruct (mounted w); reflexivity.
  - cbn; destruct (mounted w); reflexivity.
Qed.

(** *** The store *)

Lemma run_cons (w : World) (e : Event) (evs : list Event) :
  fst (run w (e :: evs)) = fst (run (fst (step w e)) evs).
Proof.
  cbn [run]. destruct (step w e) as [w1 out1]; cbn [fst].
  destruct (run w1 evs); reflexivity.
Qed.

Lemma store_run (evs : list Event) (w : World) :
  forallb (fun e => negb (is_clear e)) evs = true ->
  store (fst (run w evs)) = store w ++ List.concat (map merged evs).
Proof.
  revert w; induction evs as [|e evs IH]; intros w Hclear.
  - cbn; now rewrite app_nil_r.
  - cbn [forallb] in Hclear; apply andb_prop in Hclear as [He Hevs].
    rewrite run_cons, (IH _ Hevs), store_step.
    apply negb_true_iff in He; rewrite He.
    cbn [map List.concat]; now rewrite app_assoc.
Qed.

(** C4.  Between clears the store is the concatenation, in order of
    arrival, of the batches merged: whatever else happens in between
    (ticks, other callbacks, failed ones, unmounting, mounting), its
    length is the sum of the batch sizes, on top of what it held at the
    start, which is nothing right after a clear.  Event by event, the
    store is emptied by [clear], extended at its end by a merge with
    what was there kept in place, and otherwise left as it is. *)
Theorem store_is_the_merged_batches (w : World) (evs : list Event) :
  forallb (fun e => negb (is_clear e)) evs = true ->
  store (fst (run w evs)) = store w ++ List.concat (map merged evs)
  /\ List.length (store (fst (run w evs)))
     = List.length (store w) + list_sum (map (fun e => List.length (merged e)) evs)
  /\ store (fst (run (fst (step w ClickClear)) evs)) = List.concat (map merged evs)
  /\ List.length (store (fst (run (fst (step w ClickClear)) evs)))
     = list_sum (map (fun e => List.length (merged e)) evs)
  /\ (forall (w1 : World) (e : Event),
         store (fst (step w1 e)) = if is_clear e then [] else store w1 ++ merged e)
  /\ (forall (w1 : World) (e : Event),
         is_clear e = false ->
         firstn (List.length (store w1)) (store (fst (step w1 e))) = store w1).
Proof.
  intros Hclear.
  assert (Hlen : forall l : list Event,
             List.length (List.concat (map merged l))
             = list_sum (map (fun e => List.length (merged e)) l)).
  { intros l; rewrite length_concat, map_map; reflexivity. }
  split_all.
  - now apply store_run.
  - rewrite (store_run evs w Hclear), length_app, Hlen; reflexivity.
  - rewrite (store_run evs _ Hclear), store_step; reflexivity.
  - rewrite (store_run evs _ Hclear), store_step; cbn [is_clear app].
    apply Hlen.
  - exact store_step.
  - intros w1 e He; rewrite store_step, He.
    rewrite firstn_app, Nat.sub_diag, firstn_all; cbn; now rewrite app_nil_r.
Qed.

(** *** The first poll after a mount on an empty store *)




(** *** The timer in the closed system *)

Lemma existsb_filter_other (id : TimerId) (l : list TimerId) :
  existsb (Pos.eqb id) (filter (fun i => negb (Pos.eqb i id)) l) = false.
Proof.
  induction l as [|i l IH]; [reflexivity|].
  cbn [filter]. destruct (Pos.eqb i id) eqn:Hi; cbn [negb]; [exact IH|].
  cbn [existsb]. rewrite Pos.eqb_sym, Hi; exact IH.
Qed.

Lemma existsb_filter_false {A} (f g : A -> bool) (l : list A) :
  existsb f l = false -> existsb f (filter g l) = false.
Proof.
  induction l as [|a l IH]; [reflexivity|].
  cbn [existsb filter]; intros H; apply orb_false_iff in H as [Ha Hl].
  destruct (g a); cbn [existsb]; [rewrite Ha|]; auto.
Qed.

Lemma world_absorb (out : list Effect) (s : Sys) :
  world (absorb s out) = world s.
Proof.
  revert s; induction out as [|eff out IH]; intros s; [reflexivity|].
  unfold absorb in *; cbn [fold_left]; rewrite IH; destruct eff; reflexivity.
Qed.

Lemma intervals_absorb_quiet (id : TimerId) (out : list Effect) (s : Sys) :
  forallb (fun eff => negb (sets_interval eff)) out = true ->
  existsb (Pos.eqb id) (intervals s) = false ->
  existsb (Pos.eqb id) (intervals (absorb s out)) = false.
Proof.
  revert s; induction out as [|eff out IH]; intros s Hq Hs; [exact Hs|].
  cbn [forallb] in Hq; apply andb_prop in Hq as [Heff Hout].
  unfold absorb in *; cbn [fold_left]; apply IH; [exact Hout|].
  destruct eff; cbn in *; try exact Hs; try discriminate.
  now apply existsb_filter_false.
Qed.

(** Only mounting sets an interval or stores a handle. *)
Lemma step_quiet (w : World) (e : Event) :
  is_mount e = false ->
  timer (fst (step w e)) = timer w
  /\ forallb (fun eff => negb (sets_interval eff)) (snd (step w e)) = true.
Proof.
  intros Hm; destruct e as [id| | |k v err| |]; try discriminate Hm.
  - rewrite step_unmount; destruct (timer w); split; reflexivity.
  - rewrite step_tick; split; reflexivity.
  - callback_cases w k v err; destruct (mounted w); cbn; split; try reflexivity;
      destruct (perfData (state w)); reflexivity.
  - rewrite step_clear; destruct (mounted w), (timer w); split; reflexivity.
  - rewrite step_reload; destruct (mounted w), (timer w); split; reflexivity.
Qed.

Lemma fire_keeps_cancelled (s : Sys) (e : Event) :
  is_mount e = false ->
  timer_live s = false ->
  timer_live (fire s e) = false.
Proof.
  intros Hm Hs.
  destruct (step_quiet (world s) e Hm) as [Ht Hq].
  unfold fire, timer_live in *.
  destruct (step (world s) e) as [w out]; cbn [fst snd] in Ht, Hq.
  rewrite world_absorb; cbn [with_world world]; rewrite Ht.
  destruct (timer (world s)) as [id|]; [|reflexivity].
  now apply intervals_absorb_quiet.
Qed.

Lemma act_keeps_cancelled (s s' : Sys) (a : Action) :
  mounts a = false ->
  act s a = Some s' ->
  timer_live s = false ->
  timer_live s' = false.
Proof.
  intros Hm Ha Hs.
  destruct a as [| | |i|i e|m raw| | |]; try discriminate Hm; cbn [act] in Ha.
  - destruct (mounted (world s)); [|discriminate].
    injection Ha as <-; now apply fire_keeps_cancelled.
  - rewrite Hs in Ha; discriminate.
  - destruct (nth_error (requests s) i) as [[q k]|]; [|discriminate].
    destruct (inspected_eval q (buffer s)) as [b v].
    injection Ha as <-.
    destruct k as [k|]; [apply fire_keeps_cancelled|]; auto.
  - destruct (nth_error (requests s) i) as [[q k]|]; [|discriminate].
    injection Ha as <-.
    destruct k as [k|]; [apply fire_keeps_cancelled|]; auto.
  - injection Ha as <-; exact Hs.
  - destruct (buttons_shown (world s)); [|discriminate].
    injection Ha as <-; now apply fire_keeps_cancelled.
  - destruct (buttons_shown (world s)); [|discriminate].
    injection Ha as <-; now apply fire_keeps_cancelled.
  - destruct (reloading s); [|discriminate].
    injection Ha as <-; reflexivity.
Qed.

Lemma acts_keep_cancelled (l : list Action) (s s' : Sys) :
  forallb (fun a => negb (mounts a)) l = true ->
  acts s l = Some s' ->
  timer_live s = false ->
  timer_live s' = false.
Proof.
  revert s; induction l as [|a l IH]; intros s Hl Ha Hs; cbn [acts] in Ha.
  - injection Ha as <-; exact Hs.
  - cbn [forallb] in Hl; apply andb_prop in Hl as [Hm Hl].
    apply negb_true_iff in Hm.
    destruct (act s a) as [s1|] eqn:H1; [|discriminate].
    exact (IH s1 Hl Ha (act_keeps_cancelled s s1 a Hm H1 Hs)).
Qed.

(** C5, as the code has it.  Whatever the panel held, pressing Clear
    leaves the store empty and [totalTime] the number [0], issues the
    [clear] query (which resets the buffer of the inspected window when
    evaluated) and cancels the interval.  The interval then stays
    cancelled, with no tick possible, through everything that can happen
    short of a new mount, pressing Reload included: [reload] cancels
    again and asks for the two reloads, it sets no interval.  What sets
    the interval again is the mounting of the component, and any mount
    does, whether a reload came before it or not. *)
Theorem clear_empties_and_stops_polling (w : World) (id : TimerId) :
  mounted w = true ->
  timer w = Some id ->
  let w' := fst (step w ClickClear) in
  store w' = []
  /\ List.length (store w') = 0
  /\ perfData (state w') = []
  /\ totalTime (state w') = JNum 0
  /\ snd (step w ClickClear) = [Evaluate Q_clear None; ClearInterval id]
  /\ (forall buf : Buffer, fst (inspected_eval Q_clear buf) = empty_buffer)
  /\ (forall s : Sys,
         world s = w ->
         timer_live (fire s ClickClear) = false
         /\ act (fire s ClickClear) A_tick = None
         /\ timer_live (fire s ClickReload) = false
         /\ forall (l : list Action) (s' : Sys),
             forallb (fun a => negb (mounts a)) l = true ->
             acts (fire s ClickClear) l = Some s' ->
             timer_live s' = false /\ act s' A_tick = None)
  /\ snd (step w ClickReload)
     = [Evaluate Q_clear None; ClearInterval id; LocationReload; InspectedWindowReload]
  /\ (forall (s : Sys) (id' : TimerId),
         timer_live (fire s (Mount id')) = true
         /\ exists s' : Sys, act (fire s (Mount id')) A_tick = Some s').
Proof.
  intros Hm Ht w'; subst w'.
  rewrite step_clear, step_reload, Hm, Ht; cbn [fst snd store state].
  split_all; try reflexivity.
  - intros s Hs.
    assert (Hdead : timer_live (fire s ClickClear) = false).
    { unfold fire, timer_live; rewrite Hs, step_clear, Hm, Ht.
      cbn; apply existsb_filter_other. }
    split_all.
    + exact Hdead.
    + cbn [act]; now rewrite Hdead.
    + unfold fire, timer_live; rewrite Hs, step_reload, Hm, Ht.
      cbn; apply existsb_filter_other.
    + intros l s' Hl Hacts.
      pose proof (acts_keep_cancelled l _ s' Hl Hacts Hdead) as Hs'.
      split; [exact Hs'|]. cbn [act]; now rewrite Hs'.
  - intros s id'.
    assert (Hlive : timer_live (fire s (Mount id')) = true).
    { unfold fire, timer_live; rewrite step_mount.
      destruct (Nat.eqb (List.length (store (world s))) 0); cbn;
        now rewrite Pos.eqb_refl. }
    split; [exact Hlive|].
    cbn [act]; rewrite Hlive; eexists; reflexivity.
Qed.

(** *** Late callbacks *)

(** C7, as the code has it.  No method looks at whether the instance is
    still mounted or was cleared.  A callback that arrives after unmount
    leaves the view model and the timer as they were at unmount, because
    React ignores [setState] on an unmounted instance; a length or raw
    callback merges nothing; but a measures callback that reports no
    error still appends its batch to the store, after unmount as after
    a clear. *)
Theorem late_callback_still_merges
    (w : World) (k : Continuation) (v : jsval) (err : option ExceptionInfo) :
  mounted w = false ->
  state (fst (step w (Deliver k v err))) = state w
  /\ timer (fst (step w (Deliver k v err))) = timer w
  /\ store (fst (step w (Deliver k v err))) = store w ++ merged (Deliver k v err)
  /\ merged (Deliver K_measuresLength v err) = []
  /\ merged (Deliver K_rawMeasures v err) = []
  /\ (forall w0 : World,
         store (fst (step (fst (step w0 ClickClear)) (Deliver k v err)))
         = merged (Deliver k v err)).
Proof.
  intros Hm.
  split_all.
  - callback_cases w k v err; rewrite ?Hm; reflexivity.
  - callback_cases w k v err; rewrite ?Hm; reflexivity.
  - apply (store_step w (Deliver k v err)).
  - reflexivity.
  - reflexivity.
  - intros w0; rewrite (store_step _ (Deliver k v err)), (store_step w0 ClickClear).
    reflexivity.
Qed.

(** *** Merging *)

(** C8.  Merging the batch with times 1.5, 2.5 and 0.0 into an empty
    store leaves three measures in the store, and the view model's
    [totalTime] is the string 4.00: the float sum of the stored times,
    to two decimals. *)
Theorem merge_of_three_measures (w : World) (n1 n2 n3 : string) :
  store w = [] ->
  mounted w = true ->
  let batch := [mkMeasure n1 1.5; mkMeasure n2 2.5; mkMeasure n3 0.0] in
  let w' := fst (exec (updateMeasures batch) w) in
  store w' = batch
  /\ List.length (store w') = 3
  /\ perfData (state w') = batch
  /\ sumTotalTimeSpent (store w') = 4%float
  /\ totalTime (state w') = JStr "4.00".
Proof.
  intros Hs Hm batch w'; subst batch w'.
  unfold exec, updateMeasures, clearMeasures, evaluate, drawChart, bind, ret,
    emit, get_store, put_store, get_state, setState.
  cbn [fst snd store state mounted timer]; rewrite Hs, Hm.
  cbn [app fst store state perfData totalTime set_perfData set_totalTime List.length].
  split_all; vm_compute; reflexivity.
Qed.

Lemma buf_measures_record_all (news : list (Measure * list RawMeasure)) (b : Buffer) :
  buf_measures (record_all news b) = buf_measures b ++ map fst news.
Proof.
  revert b; induction news as [|x news IH]; intros b.
  - cbn; now rewrite app_nil_r.
  - unfold record_all in *; cbn [fold_left map]; rewrite IH; cbn.
    now rewrite <- app_assoc.
Qed.

End PanelFacts.

(** * Concrete runs *)

(** The hypotheses of C1 hold of a count of three delivered to a freshly
    mounted panel. *)
Lemma successful_poll_keeps_hasError_witness :
  strict_eq (JStr "3") (JNum 0) = false
  /\ hasError (state (fst (step Sample.polling (Deliver K_measuresLength (JStr "3") None))))
     = hasError (state Sample.polling).
Proof.
  split; [reflexivity|].
  exact (proj1 (successful_poll_keeps_hasError Sample.polling (JStr "3") eq_refl)).
Defined.

(** C1 fails as stated: the length query fails once; the observed
    application then records a measure and the next length query succeeds
    and reports it; [hasError] is still true after the successful
    poll. *)
Lemma error_flag_outlives_successful_poll :
  match acts (boot empty_buffer)
             [A_mount; A_tick; A_fail 0 "not ready";
              A_record Sample.app [Sample.paint]; A_tick; A_answer 0] with
  | Some s =>
      hasError (state (world s)) = true
      /\ pendingEvents (state (world s)) = JNum 1
      /\ loading (state (world s)) = false
  | None => False
  end.
Proof. vm_compute; split_all; reflexivity. Qed.


(** The hypotheses of C3 hold of a count of three and a one-measure
    batch. *)
Lemma fetch_is_gated_by_perfData_witness :
  strict_eq (JStr "3") (JNum 0) = false
  /\ JSON_parse_count (JStr "3") = Some (JNum 3)
  /\ JSON_parse_measures (Sample.wire [Sample.app]) = Some [Sample.app]
  /\ snd (step Sample.polling (Deliver K_measuresLength (JStr "3") None))
     = [Evaluate Q_rawMeasures (Some K_rawMeasures); Evaluate Q_measures (Some K_measures)]
  /\ store (fst (step Sample.polling (Deliver K_measures (Sample.wire [Sample.app]) None)))
     = [Sample.app].
Proof.
  pose proof (fetch_is_gated_by_perfData Sample.polling (JStr "3") (JNum 3)
                (Sample.wire [Sample.app]) [Sample.app] eq_refl eq_refl eq_refl)
    as (_ & Hfetch & _ & _ & Hmerge).
  split_all; try reflexivity; assumption.
Defined.

(** C3 fails as stated: after one cycle has merged a measure, the
    application records another; the next tick's length query reports one
    event and no error, and yet nothing is fetched and nothing merged: no
    request is outstanding, the store is as it was, and the new measure
    is still in the buffer. *)
Lemma nonzero_poll_without_fetch :
  match acts (boot empty_buffer)
             (Sample.start ++ Sample.cycle ++ [A_record Sample.row []; A_tick; A_answer 0]) with
  | Some s =>
      pendingEvents (state (world s)) = JNum 1
      /\ hasError (state (world s)) = false
      /\ requests s = []
      /\ store (world s) = [Sample.app]
      /\ buf_measures (buffer s) = [Sample.row]
  | None => False
  end.
Proof. vm_compute; split_all; reflexivity. Qed.

(** The hypothesis of C4 holds of a run with two merges among a tick, a
    length poll, a failed fetch, a raw fetch and a fetch whose text does
    not parse. *)
Lemma store_is_the_merged_batches_witness :
  let evs := [Tick;
              Deliver K_measuresLength (JStr "2") None;
              Deliver K_measures (Sample.wire [Sample.app]) None;
              Deliver K_measures JUndefined (Some "not ready"%string);
              Deliver K_rawMeasures (JStr "[]") None;
              Deliver K_measures (JStr "<html>") None;
              Deliver K_measures (Sample.wire [Sample.row]) None] in
  forallb (fun e => negb (is_clear e)) evs = true
  /\ store (fst (run Sample.polling evs)) = [Sample.app; Sample.row]
  /\ List.length (store (fst (run Sample.polling evs))) = 2.
Proof.
  cbv zeta.
  match goal with
  | |- forallb _ ?evs = true /\ _ =>
      pose proof (store_is_the_merged_batches Sample.polling evs eq_refl) as (Hst & Hlen & _)
  end.
  split; [reflexivity|].
  split; [rewrite Hst | rewrite Hlen]; reflexivity.
Defined.

(** The hypotheses of C5 hold of the panel after a whole poll cycle, with
    one measure in the store and a total of 1.50. *)
Lemma clear_empties_and_stops_polling_witness :
  let w := world SampleImports.settled in
  mounted w = true
  /\ timer w = Some 1%positive
  /\ store w = [Sample.app]
  /\ totalTime (state w) = JStr "1.50"
  /\ store (fst (step w ClickClear)) = []
  /\ totalTime (state (fst (step w ClickClear))) = JNum 0
  /\ snd (step w ClickClear) = [Evaluate Q_clear None; ClearInterval 1%positive]
  /\ timer_live SampleImports.settled = true
  /\ timer_live (fire SampleImports.settled ClickClear) = false.
Proof.
  cbv zeta.
  assert (Hm : mounted (world SampleImports.settled) = true) by (vm_compute; reflexivity).
  assert (Ht : timer (world SampleImports.settled) = Some 1%positive)
    by (vm_compute; reflexivity).
  pose proof (clear_empties_and_stops_polling (world SampleImports.settled) 1%positive Hm Ht)
    as (Hstore & _ & _ & Htotal & Hout & _ & Hsys & _).
  destruct (Hsys SampleImports.settled eq_refl) as (Hdead & _).
  split_all; try assumption; vm_compute; reflexivity.
Defined.

(** C5 fails as stated.  A fetch is in flight when the user presses
    Clear: the interval is cancelled and no tick can happen.  The
    callback of the fetch arrives and leaves one measure in the store.
    The component is then unmounted and mounted again: the store not
    being empty, the mount asks for no reload, and it sets the interval.
    Polling is back, the panel's page was never told to reload, and the
    calls made since Clear are the reset issued by the late merge, its
    chart, the cancelling of an interval already cancelled and the new
    interval: no reload among them. *)
Lemma polling_resumes_without_reload :
  match acts (boot empty_buffer) (Sample.start ++ [A_tick; A_answer 0; A_clear]) with
  | Some cleared =>
      timer_live cleared = false
      /\ act cleared A_tick = None
      /\ match acts cleared [A_answer 1; A_unmount; A_mount] with
         | Some s =>
             timer_live s = true
             /\ (exists s' : Sys, act s A_tick = Some s')
             /\ reloading s = false
             /\ existsb is_page_reload (log s) = false
             /\ existsb is_reload (skipn (List.length (log cleared)) (log s)) = false
             /\ filter is_reload (log s) = [InspectedWindowReload]
             /\ last (log s) InspectedWindowReload = SetInterval 2%positive 2000
         | None => False
         end
  | None => False
  end.
Proof.
  vm_compute; split_all; try reflexivity.
  eexists; reflexivity.
Qed.

(** After Clear no tick can happen; Reload makes the panel's page load
    anew, the component mounts again and the interval is set: polling is
    back. *)
Example polling_resumes_after_reload :
  match acts (boot empty_buffer) (Sample.start ++ Sample.cycle ++ [A_clear]) with
  | Some s =>
      act s A_tick = None
      /\ act s A_load = None
      /\ match acts s [A_reload; A_load; A_mount] with
         | Some s' => timer_live s' = true /\ store (world s') = []
         | None => False
         end
  | None => False
  end.
Proof. vm_compute; split_all; reflexivity. Qed.

(** The hypothesis of C6 holds of a freshly mounted panel. *)
Lemma length_error_only_sets_error_flags_witness :
  mounted Sample.polling = true
  /\ hasError (state (fst (step Sample.polling
                             (Deliver K_measuresLength JUndefined (Some "not ready"%string)))))
     = true
  /\ snd (step Sample.polling (Deliver K_measuresLength JUndefined (Some "not ready"%string)))
     = [].
Proof.
  pose proof (length_error_only_sets_error_flags Sample.polling JUndefined
                "not ready"%string eq_refl)
    as (Herr & _ & _ & _ & _ & _ & _ & _ & _ & _ & _ & Hout & _).
  split_all; try reflexivity; assumption.
Defined.

(** The hypothesis of C7 holds of a panel that was unmounted. *)
Lemma late_callback_still_merges_witness :
  mounted Sample.unmounted = false
  /\ state (fst (step Sample.unmounted (Deliver K_measures (Sample.wire [Sample.app]) None)))
     = state Sample.unmounted
  /\ store (fst (step Sample.unmounted (Deliver K_measures (Sample.wire [Sample.app]) None)))
     = [Sample.app].
Proof.
  pose proof (late_callback_still_merges Sample.unmounted K_measures
                (Sample.wire [Sample.app]) None eq_refl)
    as (Hstate & _ & Hstore & _).
  split_all; [reflexivity | exact Hstate | rewrite Hstore; reflexivity].
Defined.

(** C7 fails as stated.  A fetch is in flight when the user presses Clear;
    when its callback arrives the emptied store receives the measure.
    Likewise when the panel is unmounted with the fetch in flight: the
    view model stays as it was, the store does not. *)
Lemma late_callback_is_not_dropped :
  match acts (boot empty_buffer) (Sample.start ++ [A_tick; A_answer 0; A_clear]),
        acts (boot empty_buffer) (Sample.start ++ [A_tick; A_answer 0; A_unmount]) with
  | Some cleared, Some gone =>
      store (world cleared) = []
      /\ perfData (state (world cleared)) = []
      /\ totalTime (state (world cleared)) = JNum 0
      /\ nth_error (requests cleared) 1 = Some (Q_measures, Some K_measures)
      /\ match act cleared (A_answer 1) with
         | Some s => store (world s) = [Sample.app]
         | None => False
         end
      /\ store (world gone) = []
      /\ nth_error (requests gone) 1 = Some (Q_measures, Some K_measures)
      /\ match act gone (A_answer 1) with
         | Some s =>
             store (world s) = [Sample.app]
             /\ state (world s) = state (world gone)
         | None => False
         end
  | _, _ => False
  end.
Proof. vm_compute; split_all; reflexivity. Qed.

(** The hypotheses of C8 hold of a freshly mounted panel. *)
Lemma merge_of_three_measures_witness :
  store Sample.polling = []
  /\ mounted Sample.polling = true
  /\ let w' := fst (exec (updateMeasures [mkMeasure "App" 1.5; mkMeasure "Row" 2.5;
                                          mkMeasure "Cell" 0.0]) Sample.polling) in
     List.length (store w') = 3 /\ totalTime (state w') = JStr "4.00".
Proof.
  pose proof (merge_of_three_measures Sample.polling "App" "Row" "Cell" eq_refl eq_refl)
    as (_ & Hlen & _ & _ & Htotal).
  cbv zeta; split_all; try reflexivity; assumption.
Defined.

(** X1.  The race that the reset leaves open.  Two ticks pass before the
    first length query is answered; both callbacks find [perfData] empty
    and fetch; both fetches are evaluated before the first reset, and the
    one measure of the buffer is merged twice. *)
Example overlapping_polls_count_twice :
  match acts (boot empty_buffer)
             (Sample.start ++
              [A_tick; A_tick;
               A_answer 0; A_answer 0;
               A_answer 0; A_answer 0; A_answer 0; A_answer 0;
               A_answer 0; A_answer 0]) with
  | Some s =>
      store (world s) = [Sample.app; Sample.app]
      /\ totalTime (state (world s)) = JStr "3.00"
      /\ requests s = []
  | None => False
  end.
Proof. vm_compute; split_all; reflexivity. Qed.

(** * The view, the chart and the surroundings *)

Section MoreFacts.

Context {R : Raw} {J : JSON} {I : Imports}.

(** Every callback, in one of its outcomes. *)
Ltac by_callback w k v err :=
  destruct err as [e|];
  [ rewrite (step_callback_error w k v e)
  | destruct k;
    [ destruct (strict_eq v (JNum 0)) eqn:Hzero;
      [ rewrite (step_length_zero w v Hzero)
      | destruct (JSON_parse_count v) as [parsed|] eqn:Hparse;
        [ rewrite (step_length_ok w v parsed Hzero Hparse)
        | rewrite (step_length_throw w v Hzero Hparse) ] ]
    | destruct (JSON_parse_measures v) as [batch|] eqn:Hparse;
      [ rewrite (step_measures_ok w v batch Hparse)
      | rewrite (step_measures_throw w v Hparse) ]
    | destruct (JSON_parse_rawMeasures v) as [parsed|] eqn:Hparse;
      [ rewrite (step_raw_ok w v parsed Hparse)
      | rewrite (step_raw_throw w v Hparse) ] ] ].

(** ** The view model *)

Lemma total_matches_step (w : World) (e : Event) :
  total_matches (state w) -> total_matches (state (fst (step w e))).
Proof.
  intros Hw; destruct e as [id| | |k v err| |].
  - rewrite step_mount; left; split; reflexivity.
  - rewrite step_unmount; exact Hw.
  - rewrite step_tick; exact Hw.
  - by_callback w k v err; destruct (mounted w); cbn; try exact Hw.
    right; reflexivity.
  - rewrite step_clear; destruct (mounted w); cbn; [left; split; reflexivity | exact Hw].
  - rewrite step_reload; destruct (mounted w); cbn; [left; split; reflexivity | exact Hw].
Qed.

Lemma total_matches_run (evs : list Event) (w : World) :
  total_matches (state w) -> total_matches (state (fst (run w evs))).
Proof.
  revert w; induction evs as [|e evs IH]; intros w Hw; [exact Hw|].
  rewrite run_cons; apply IH, total_matches_step, Hw.
Qed.

(** X2.  Whatever happens after the page is loaded, the total on display
    belongs to the measures on display: [totalTime] is the number [0]
    with no measure in [perfData], or the two-decimal string of the sum
    of exactly the measures in [perfData].  When [render] shows the
    measures, the table, the list and the total all come from that one
    list. *)
Theorem displayed_total_matches_displayed_measures (evs : list Event) :
  total_matches (state (fst (run fresh evs)))
  /\ match render (state (fst (run fresh evs))) with
     | Panel _ _ (Fragment ms _ total ms') =>
         ms = ms'
         /\ ((ms = [] /\ total = JNum 0)
             \/ total = JStr (Number.toFixed2 (sumTotalTimeSpent ms)))
     | _ => True
     end.
Proof.
  assert (H : total_matches (state (fst (run fresh evs)))).
  { apply total_matches_run; left; split; reflexivity. }
  split; [exact H|].
  unfold render.
  destruct (loading _); [exact Logic.I|].
  destruct (hasError _); [exact Logic.I|].
  split; [reflexivity | exact H].
Qed.

Lemma hasError_run (evs : list Event) (w : World) :
  forallb (fun e => negb (is_mount e)) evs = true ->
  hasError (state w) = true ->
  hasError (state (fst (run w evs))) = true.
Proof.
  revert w; induction evs as [|e evs IH]; intros w Hevs Hw; [exact Hw|].
  cbn [forallb] in Hevs; apply andb_prop in Hevs as [He Hevs].
  apply negb_true_iff in He.
  rewrite run_cons; apply IH; [exact Hevs|].
  now apply hasError_sticky.
Qed.

(** X10.  Once an instance is in the error state, [render] never shows
    its measures again: through every later tick, callback and button,
    successful polls and merges included, the view is the loader or the
    panel with the error component. *)
Theorem error_hides_measures_for_good (w : World) (evs : list Event) :
  forallb (fun e => negb (is_mount e)) evs = true ->
  hasError (state w) = true ->
  shown_measures (render (state (fst (run w evs)))) = None
  /\ (offers_buttons (render (state (fst (run w evs)))) = true ->
      exists pending : jsval,
        render (state (fst (run w evs)))
        = Panel (String.eqb theme "dark") pending ErrorComponent).
Proof.
  intros Hevs Hw.
  pose proof (hasError_run evs w Hevs Hw) as Herr.
  unfold render; rewrite Herr.
  destruct (loading _); cbn; split; try reflexivity; try discriminate.
  intros _; eexists; reflexivity.
Qed.

(** ** The chart *)

(** X7.  The chart is drawn by a successful merge and by nothing else:
    any event whose handler draws is a measures callback that reports no
    error and parses, and the chart gets the raw measures that the state
    holds at that moment.  In particular the raw-measures callback never
    draws, so raw measures that arrive after the merge reach the state
    and not the chart. *)
Theorem chart_is_drawn_only_by_a_merge (w : World) (e : Event) (p : ChartProps) :
  In (DrawChart p) (snd (step w e)) ->
  exists (v : jsval) (batch : list Measure),
    e = Deliver K_measures v None
    /\ JSON_parse_measures v = Some batch
    /\ p = mkChartProps (Number.toFixed2 (sumTotalTimeSpent (store w ++ batch)))
                        (rawMeasures (state w))
                        (List.length (store w ++ batch)).
Proof.
  intros Hin; destruct e as [id| | |k v err| |].
  - rewrite step_mount in Hin; cbn [snd] in Hin.
    destruct (Nat.eqb _ _); cbn in Hin; intuition discriminate.
  - rewrite step_unmount in Hin; destruct (timer w); cbn in Hin; intuition discriminate.
  - rewrite step_tick in Hin; cbn in Hin; intuition discriminate.
  - revert Hin; by_callback w k v err; cbn [snd]; intros Hin;
      try (destruct (perfData (state w))); cbn in Hin;
      try (intuition discriminate).
    all: destruct Hin as [Hp|[Hp|[]]]; [|discriminate].
    all: injection Hp as <-; exists v, batch; auto.
  - rewrite step_clear in Hin; destruct (timer w); cbn in Hin; intuition discriminate.
  - rewrite step_reload in Hin; destruct (timer w); cbn in Hin; intuition discriminate.
Qed.

(** X11.  The chart drawn by a merge agrees with the view model that the
    merge installs.  Its one dataset has four values and four colours
    under four labels; the first label counts the measures now on display
    and says component for none or one, components otherwise; the first
    value is [computeTotalTime] of the state's raw measures and of the
    very string that becomes [totalTime], to two decimals. *)
Theorem chart_of_a_merge (w : World) (v : jsval) (batch : list Measure) :
  JSON_parse_measures v = Some batch ->
  mounted w = true ->
  exists p : ChartProps,
    snd (step w (Deliver K_measures v None)) = [DrawChart p; Evaluate Q_clear None]
    /\ List.length (config_labels (chart_config p)) = 4
    /\ (exists values : list jsval, exists colours : list string,
           config_datasets (chart_config p) = [mkDataset values colours]
           /\ List.length values = 4
           /\ List.length colours = 4
           /\ exists total : string,
               totalTime (state (fst (step w (Deliver K_measures v None)))) = JStr total
               /\ nth_error values 0
                  = Some (JStr (Number.toFixed2
                                  (computeTotalTime (rawMeasures (state w)) total))))
    /\ nth_error (config_labels (chart_config p)) 0
       = Some (let n := List.length
                          (perfData (state (fst (step w (Deliver K_measures v None))))) in
               Number.dec (Z.of_nat n) ++ " "
                 ++ (if Nat.leb n 1 then "component" else "components")
                 ++ " (ms)")%string.
Proof.
  intros Hparse Hm.
  rewrite (step_measures_ok w v batch Hparse), Hm.
  eexists; split; [reflexivity|].
  cbn [fst snd state perfData totalTime set_perfData set_totalTime].
  split_all.
  - reflexivity.
  - do 2 eexists; split; [reflexivity|]. split_all; try reflexivity.
    eexists; split; reflexivity.
  - cbn [chart_config chartOptions getChartData config_labels nth_error
           cd_totalComponents chart_totalComponents].
    destruct (List.length (store w ++ batch)) as [|[|n]]; reflexivity.
Qed.

(** ** Mounting again, clearing again *)

(** X8.  The store outlives an instance, the view model does not.  A
    newly mounted instance starts from an empty [perfData] whatever the
    store holds, so its first successful length poll fetches even when
    the store is not empty, and the merge that follows appends to the old
    store and puts old and new measures on display together. *)
Theorem new_instance_fetches_whatever_the_store_holds
    (w : World) (id : TimerId) (count parsed v : jsval) (batch : list Measure) :
  strict_eq count (JNum 0) = false ->
  JSON_parse_count count = Some parsed ->
  JSON_parse_measures v = Some batch ->
  let w1 := fst (step w (Mount id)) in
  let w2 := fst (step w1 (Deliver K_measuresLength count None)) in
  let w3 := fst (step w2 (Deliver K_measures v None)) in
  store w1 = store w
  /\ perfData (state w1) = []
  /\ snd (step w1 (Deliver K_measuresLength count None))
     = [Evaluate Q_rawMeasures (Some K_rawMeasures); Evaluate Q_measures (Some K_measures)]
  /\ store w3 = store w ++ batch
  /\ perfData (state w3) = store w ++ batch.
Proof.
  intros Hzero Hcount Hbatch w1 w2 w3; subst w1 w2 w3.
  rewrite step_mount; cbn [fst].
  rewrite (step_length_ok _ count parsed Hzero Hcount); cbn [fst snd mounted state perfData].
  rewrite (step_measures_ok _ v batch Hbatch); cbn.
  split_all; reflexivity.
Qed.

(** X9.  Clearing twice is clearing once: the second [clear] leaves the
    world as the first left it.  The handle of the cancelled interval
    stays in [this.timer], so the second [clear] makes the same two calls
    again, [clearInterval] on the dead handle included.  [reload] is
    [clear] followed by the two reloads, and leaves what [clear] leaves
    with [loading] set. *)
Theorem clear_twice_is_clear_once (w : World) :
  fst (step (fst (step w ClickClear)) ClickClear) = fst (step w ClickClear)
  /\ snd (step (fst (step w ClickClear)) ClickClear) = snd (step w ClickClear)
  /\ timer (fst (step w ClickClear)) = timer w
  /\ snd (step w ClickReload)
     = snd (step w ClickClear) ++ [LocationReload; InspectedWindowReload]
  /\ store (fst (step w ClickReload)) = store (fst (step w ClickClear))
  /\ state (fst (step w ClickReload))
     = (if mounted w
        then set_loading true (state (fst (step w ClickClear)))
        else state (fst (step w ClickClear))).
Proof.
  rewrite !step_clear, step_reload.
  destruct w as [st s [id|] [|]]; cbn; split_all; reflexivity.
Qed.

(** ** The closed system, action by action *)

Lemma world_fire (s : Sys) (e : Event) :
  world (fire s e) = fst (step (world s) e).
Proof.
  unfold fire; destruct (step (world s) e) as [w out].
  now rewrite world_absorb.
Qed.

Lemma intervals_absorb (out : list Effect) (s : Sys) :
  intervals (absorb s out) = fold_left after_call out (intervals s).
Proof.
  revert s; induction out as [|eff out IH]; intros s; [reflexivity|].
  unfold absorb in *; cbn [fold_left]; rewrite IH; destruct eff; reflexivity.
Qed.

Lemma intervals_fire (s : Sys) (e : Event) :
  intervals (fire s e) = fold_left after_call (snd (step (world s) e)) (intervals s).
Proof.
  unfold fire; destruct (step (world s) e) as [w out].
  now rewrite intervals_absorb.
Qed.

(** What an action amounts to: a handler fired on a system with the same
    component and intervals, under the conditions that make the action
    possible; or no handler at all; or a page that starts over. *)
Lemma act_cases (s s' : Sys) (a : Action) :
  act s a = Some s' ->
  (exists (s1 : Sys) (e : Event),
      world s1 = world s
      /\ intervals s1 = intervals s
      /\ s' = fire s1 e
      /\ (is_clear e = true -> mounted (world s) = true)
      /\ (is_mount e = true -> mounted (world s) = false)
      /\ (e = Unmount -> mounted (world s) = true)
      /\ (forall k v err,
             e = Deliver k v err ->
             (err = None /\ strict_eq v (JNum 0) = false) \/ is_failure a = true))
  \/ (world s' = world s /\ intervals s' = intervals s)
  \/ (world s' = fresh /\ intervals s' = []).
Proof.
  intros Ha; destruct a as [| | |i|i x|m raw| | |]; cbn [act] in Ha.
  - destruct (mounted (world s)) eqn:Hm; [discriminate|]. injection Ha as <-.
    left; exists s, (Mount (next_timer s)); split_all; auto; discriminate.
  - destruct (mounted (world s)) eqn:Hm; [|discriminate]. injection Ha as <-.
    left; exists s, Unmount; split_all; auto; discriminate.
  - destruct (timer_live s); [|discriminate]. injection Ha as <-.
    left; exists s, Tick; split_all; auto; discriminate.
  - destruct (nth_error (requests s) i) as [[q k]|]; [|discriminate].
    destruct (inspected_eval q (buffer s)) as [b v] eqn:Hq.
    injection Ha as <-. destruct k as [k|].
    + left; exists (with_buffer (with_requests s (remove_nth i (requests s))) b).
      exists (Deliver k v None); split_all; try reflexivity; try discriminate.
      intros k0 v0 err0 He; injection He as -> -> <-; left; split; [reflexivity|].
      destruct q; cbn in Hq; injection Hq as <- <-; reflexivity.
    + right; left; split; reflexivity.
  - destruct (nth_error (requests s) i) as [[q k]|]; [|discriminate].
    injection Ha as <-. destruct k as [k|].
    + left; exists (with_requests s (remove_nth i (requests s))).
      exists (Deliver k JUndefined (Some x)); split_all;
        try reflexivity; try discriminate.
      intros; right; reflexivity.
    + right; left; split; reflexivity.
  - injection Ha as <-; right; left; split; reflexivity.
  - destruct (buttons_shown (world s)) eqn:Hb; [|discriminate]. injection Ha as <-.
    apply andb_prop in Hb as [Hm _].
    left; exists s, ClickClear; split_all; auto; discriminate.
  - destruct (buttons_shown (world s)) eqn:Hb; [|discriminate]. injection Ha as <-.
    apply andb_prop in Hb as [Hm _].
    left; exists s, ClickReload; split_all; auto; discriminate.
  - destruct (reloading s); [|discriminate]. injection Ha as <-.
    right; right; split; reflexivity.
Qed.

(** A property kept by every permitted action holds along every run. *)
Lemma acts_invariant (P : Sys -> Prop) (permitted : Action -> bool) :
  (forall s a s', permitted a = true -> P s -> act s a = Some s' -> P s') ->
  forall (l : list Action) (s s' : Sys),
    forallb permitted l = true -> P s -> acts s l = Some s' -> P s'.
Proof.
  intros Hstep l; induction l as [|a l IH]; intros s s' Hl Hs Hacts; cbn [acts] in Hacts.
  - injection Hacts as <-; exact Hs.
  - cbn [forallb] in Hl; apply andb_prop in Hl as [Ha Hl].
    destruct (act s a) as [s1|] eqn:H1; [|discriminate].
    exact (IH s1 s' Hl (Hstep s a s1 Ha Hs H1) Hacts).
Qed.

Lemma forallb_always {A} (l : list A) : forallb (fun _ => true) l = true.
Proof. induction l; auto. Qed.

(** ** What is on display and what is stored *)

Lemma shows_store_step (w : World) (e : Event) :
  shows_store w ->
  (is_clear e = true -> mounted w = true) ->
  shows_store (fst (step w e)).
Proof.
  intros [[rest Hrest] Hfull] Hclick; unfold shows_store.
  destruct e as [id| | |k v err| |].
  - rewrite step_mount; cbn; split; [now exists (store w) | now left].
  - rewrite step_unmount; cbn; split; [now exists rest | discriminate].
  - rewrite step_tick; cbn; split; [now exists rest | exact Hfull].
  - by_callback w k v err; destruct (mounted w) eqn:Hm; cbn;
      try (split; [now exists rest
                  | intros Hx; first [congruence | apply Hfull; congruence]]).
    + split; [exists []; now rewrite app_nil_r | intros _; now right].
    + split; [|discriminate].
      exists (rest ++ batch); now rewrite Hrest, app_assoc.
  - rewrite step_clear, (Hclick eq_refl); cbn; split; [now exists [] | now left].
  - rewrite step_reload, (Hclick eq_refl); cbn; split; [now exists [] | now left].
Qed.

Lemma shows_store_act (s s' : Sys) (a : Action) :
  shows_store (world s) -> act s a = Some s' -> shows_store (world s').
Proof.
  intros Hs Ha.
  destruct (act_cases s s' a Ha)
    as [(s1 & e & Hw & _ & -> & Hclick & _) | [[Hw _] | [Hw _]]].
  - rewrite world_fire, Hw; now apply shows_store_step.
  - now rewrite Hw.
  - rewrite Hw; split; [now exists [] | now left].
Qed.

(** X3.  As long as the component is not unmounted, so that every
    callback finds the instance that asked for it, the panel never
    displays a measure that is not in the store: along every such run
    of the closed system, page loads and the mounts that follow them
    included, [perfData] is the front of the store, in the same order,
    and while the instance is mounted it is the whole store or empty. *)
Theorem display_follows_store (b : Buffer) (l : list Action) (s : Sys) :
  forallb (fun a => negb (unmounts a)) l = true ->
  acts (boot b) l = Some s ->
  (exists rest : list Measure, store (world s) = perfData (state (world s)) ++ rest)
  /\ (mounted (world s) = true ->
      perfData (state (world s)) = [] \/ perfData (state (world s)) = store (world s)).
Proof.
  intros Hl Hacts.
  apply (acts_invariant (fun s => shows_store (world s)) (fun a => negb (unmounts a)))
    with (l := l) (s := boot b); auto.
  - intros s0 a s1 _; apply shows_store_act.
  - split; [now exists [] | now left].
Qed.

(** ** Intervals *)

Lemma one_interval_fire (s : Sys) (e : Event) :
  one_interval s ->
  (is_mount e = true -> mounted (world s) = false) ->
  one_interval (fire s e).
Proof.
  intros Hs Hmount; unfold one_interval.
  rewrite world_fire, intervals_fire.
  destruct e as [id| | |k v err| |].
  - rewrite step_mount; cbn [fst snd].
    destruct Hs as [Hnone | (Hm & _)]; [|rewrite (Hmount eq_refl) in Hm; discriminate].
    rewrite Hnone. right; split; [reflexivity|]. exists id.
    destruct (Nat.eqb _ _); split; reflexivity.
  - rewrite step_unmount; cbn [fst snd]. left.
    destruct Hs as [Hnone | (_ & id & Ht & Hone)].
    + rewrite Hnone; destruct (timer (world s)); reflexivity.
    + rewrite Ht, Hone; cbn; now rewrite Pos.eqb_refl.
  - rewrite step_tick; exact Hs.
  - assert (Hsame : one_interval s) by exact Hs.
    by_callback (world s) k v err; destruct (mounted (world s)) eqn:Hm; cbn;
      try (destruct (perfData (state (world s)))); cbn;
      (destruct Hsame as [Hnone | (Hm' & id & Ht & Hone)];
       [ now left
       | right; split; [congruence | exists id; split; assumption] ]).
  - rewrite step_clear. left.
    destruct Hs as [Hnone | (_ & id & Ht & Hone)].
    + rewrite Hnone; destruct (mounted (world s)), (timer (world s)); reflexivity.
    + rewrite Ht, Hone; destruct (mounted (world s)); cbn; now rewrite Pos.eqb_refl.
  - rewrite step_reload. left.
    destruct Hs as [Hnone | (_ & id & Ht & Hone)].
    + rewrite Hnone; destruct (mounted (world s)), (timer (world s)); reflexivity.
    + rewrite Ht, Hone; destruct (mounted (world s)); cbn; now rewrite Pos.eqb_refl.
Qed.

Lemma one_interval_act (s s' : Sys) (a : Action) :
  one_interval s -> act s a = Some s' -> one_interval s'.
Proof.
  intros Hs Ha.
  destruct (act_cases s s' a Ha)
    as [(s1 & e & Hw & Hi & -> & _ & Hmount & _) | [[Hw Hi] | [Hw Hi]]].
  - apply one_interval_fire.
    + unfold one_interval in *; now rewrite Hw, Hi.
    + now rewrite Hw.
  - unfold one_interval in *; now rewrite Hw, Hi.
  - left; exact Hi.
Qed.

(** X4.  The panel never leaks an interval.  In the closed system at most
    one interval is set at any time, it is the one whose handle the
    instance holds, and none is set while the component is unmounted:
    every path that unmounts, clears or reloads cancels it, and mounting
    is the only path that sets one. *)
Theorem no_interval_leak (b : Buffer) (l : list Action) (s : Sys) :
  acts (boot b) l = Some s ->
  (List.length (intervals s) <= 1)%nat
  /\ (forall id : TimerId, In id (intervals s) -> timer (world s) = Some id)
  /\ (mounted (world s) = false -> intervals s = []).
Proof.
  intros Hacts.
  assert (H : one_interval s).
  { apply (acts_invariant one_interval (fun _ => true))
      with (l := l) (s := boot b); auto using forallb_always.
    - intros s0 a s1 _; apply one_interval_act.
    - now left. }
  destruct H as [Hnone | (Hm & id & Ht & Hone)].
  - rewrite Hnone; split_all; auto. intros id [].
  - rewrite Hone, Hm; split_all; cbn; auto; try discriminate.
    intros id' [<-|[]]; exact Ht.
Qed.

(** ** Errors come from the channel *)

Lemma quiet_event_keeps_hasError (w : World) (e : Event) :
  is_mount e = false ->
  (forall k v err, e = Deliver k v err -> err = None /\ strict_eq v (JNum 0) = false) ->
  hasError (state (fst (step w e))) = hasError (state w).
Proof.
  intros Hm Hok; destruct e as [id| | |k v err| |]; try discriminate Hm.
  - now rewrite step_unmount.
  - now rewrite step_tick.
  - destruct (Hok k v err eq_refl) as [-> Hzero].
    destruct k.
    + now apply successful_poll_keeps_hasError_aux.
    + destruct (JSON_parse_measures v) as [batch|] eqn:Hparse.
      * rewrite (step_measures_ok w v batch Hparse); destruct (mounted w); reflexivity.
      * now rewrite (step_measures_throw w v Hparse).
    + destruct (JSON_parse_rawMeasures v) as [parsed|] eqn:Hparse.
      * rewrite (step_raw_ok w v parsed Hparse); destruct (mounted w); reflexivity.
      * now rewrite (step_raw_throw w v Hparse).
  - rewrite step_clear; destruct (mounted w); reflexivity.
  - rewrite step_reload; destruct (mounted w); reflexivity.
Qed.

Lemma no_error_act (s s' : Sys) (a : Action) :
  is_failure a = false ->
  hasError (state (world s)) = false ->
  act s a = Some s' ->
  hasError (state (world s')) = false.
Proof.
  intros Hfail Hs Ha.
  destruct (act_cases s s' a Ha)
    as [(s1 & e & Hw & _ & -> & _ & _ & _ & Hdeliver) | [[Hw _] | [Hw _]]].
  - rewrite world_fire, Hw.
    destruct (is_mount e) eqn:Hm.
    + destruct e; try discriminate Hm. now rewrite step_mount.
    + rewrite quiet_event_keeps_hasError; auto.
      intros k v err He. destruct (Hdeliver k v err He) as [H|H]; [exact H | congruence].
  - now rewrite Hw.
  - now rewrite Hw.
Qed.

(** X5.  Only a failure of the channel puts the panel in the error state.
    Along every run of the closed system in which no evaluation fails,
    whatever the buffer holds (nothing, included) and in whatever order
    the requests are answered, [hasError] stays false and [render] never
    shows the error component. *)
Theorem no_failure_no_error (b : Buffer) (l : list Action) (s : Sys) :
  forallb (fun a => negb (is_failure a)) l = true ->
  acts (boot b) l = Some s ->
  hasError (state (world s)) = false
  /\ match render (state (world s)) with
     | Panel _ _ ErrorComponent => False
     | _ => True
     end.
Proof.
  intros Hl Hacts.
  assert (H : hasError (state (world s)) = false).
  { apply (acts_invariant (fun s => hasError (state (world s)) = false)
                          (fun a => negb (is_failure a)))
      with (l := l) (s := boot b); auto.
    intros s0 a s1 Ha; apply no_error_act; now apply negb_true_iff. }
  split; [exact H|].
  unfold render; rewrite H; destruct (loading _); exact Logic.I.
Qed.

(** ** Between the fetch and the reset *)

Lemma acts_app (l1 l2 : list Action) (s : Sys) :
  acts s (l1 ++ l2) = match acts s l1 with
                      | Some s1 => acts s1 l2
                      | None => None
                      end.
Proof.
  revert s; induction l1 as [|a l1 IH]; intros s; [reflexivity|].
  cbn [app acts]; destruct (act s a); [apply IH | reflexivity].
Qed.

Lemma acts_record (news : list (Measure * list RawMeasure)) (s : Sys) :
  acts s (map record_action news) = Some (with_buffer s (record_all news (buffer s))).
Proof.
  revert s; induction news as [|x news IH]; intros s.
  - destruct s; reflexivity.
  - cbn [map acts]; unfold record_action at 1; cbn [act]; rewrite IH.
    destruct s; reflexivity.
Qed.

Lemma length_remove_nth {A} (l : list A) (i : nat) (x : A) :
  nth_error l i = Some x -> S (List.length (remove_nth i l)) = List.length l.
Proof.
  revert i; induction l as [|a l IH]; intros [|i] H; try discriminate; cbn.
  - reflexivity.
  - f_equal; now apply IH.
Qed.

Lemma nth_error_last {A} (l : list A) (x : A) :
  nth_error (l ++ [x]) (List.length l) = Some x.
Proof. induction l; auto. Qed.

Lemma remove_nth_last {A} (l : list A) (x : A) :
  remove_nth (List.length l) (l ++ [x]) = l.
Proof. induction l as [|a l IH]; [reflexivity | cbn; now rewrite IH]. Qed.

(** X6.  Between the evaluation of a fetch and the evaluation of the
    reset that its merge issues, the buffer is not protected: whatever
    the observed application records in that window is wiped by the
    reset without ever having been fetched.  After the reset the store
    holds what the fetch saw and nothing of the later records, and the
    buffer holds nothing: those measures are counted zero times. *)
Theorem records_before_the_reset_are_lost
    (s : Sys) (i : nat) (news : list (Measure * list RawMeasure)) :
  nth_error (requests s) i = Some (Q_measures, Some K_measures) ->
  JSON_parse_measures (JStr (JSON_stringify_measures (buf_measures (buffer s))))
  = Some (buf_measures (buffer s)) ->
  exists s' : Sys,
    acts s (A_answer i :: map record_action news
              ++ [A_answer (List.length (requests s) - 1)]) = Some s'
    /\ store (world s') = store (world s) ++ buf_measures (buffer s)
    /\ buffer s' = empty_buffer
    /\ requests s' = remove_nth i (requests s).
Proof.
  intros Hnth Hparse.
  pose proof (length_remove_nth _ _ _ Hnth) as Hlen.
  cbn [acts act]; rewrite Hnth; cbn [inspected_eval].
  unfold fire at 1; cbn [world with_buffer with_requests].
  rewrite (step_measures_ok _ _ _ Hparse).
  set (w1 := if mounted (world s) then _ else _).
  cbn [absorb fold_left absorb1 logged with_world with_requests
         world buffer intervals requests next_timer reloading log].
  rewrite acts_app, acts_record.
  unfold with_requests, logged, with_world, with_buffer.
  cbn [acts act world buffer intervals requests next_timer reloading log].
  replace (List.length (requests s) - 1) with (List.length (remove_nth i (requests s)))
    by (rewrite <- Hlen; cbn; now rewrite Nat.sub_0_r).
  rewrite nth_error_last, remove_nth_last; cbn [inspected_eval].
  unfold with_requests, with_buffer.
  cbn [world buffer intervals requests next_timer reloading log].
  eexists; split; [reflexivity|].
  cbn [world buffer requests]; split_all; try reflexivity.
  subst w1; destruct (mounted (world s)); reflexivity.
Qed.

(** ** After the reset *)

(** What answering an outstanding fetch does to the closed system: the
    batch is appended to the store, the chart is drawn, the reset is
    issued as the last outstanding request, and the buffer is as it
    was. *)
Lemma answer_fetch (s : Sys) (i : nat) (batch : list Measure) :
  nth_error (requests s) i = Some (Q_measures, Some K_measures) ->
  JSON_parse_measures (JStr (JSON_stringify_measures (buf_measures (buffer s))))
  = Some batch ->
  exists s1 : Sys,
    act s (A_answer i) = Some s1
    /\ store (world s1) = store (world s) ++ batch
    /\ (exists props : ChartProps, log s1 = log s ++ [DrawChart props; Evaluate Q_clear None])
    /\ requests s1 = remove_nth i (requests s) ++ [(Q_clear, None)]
    /\ buffer s1 = buffer s.
Proof.
  intros Hnth Hparse.
  cbn [act]; rewrite Hnth; cbn [inspected_eval].
  unfold fire; cbn [world with_buffer with_requests].
  rewrite (step_measures_ok _ _ _ Hparse).
  set (w1 := if mounted (world s) then _ else _).
  cbn [absorb fold_left absorb1 logged with_world with_requests
         world buffer intervals requests next_timer reloading log].
  unfold with_requests, logged, with_world, with_buffer.
  cbn [world buffer intervals requests next_timer reloading log].
  eexists; split; [reflexivity|].
  cbn [world buffer requests log]; split_all.
  - subst w1; destruct (mounted (world s)); reflexivity.
  - eexists; rewrite <- app_assoc; reflexivity.
  - reflexivity.
  - reflexivity.
Qed.

(** C9, as the code has it.  Answering an outstanding fetch merges what
    the buffer holds into the store and ends by issuing the [clear]
    query: the calls of the callback are the chart and that query, which
    joins the outstanding requests last, the buffer still as it was.
    Once that query is evaluated the buffer is empty; whatever the
    application records afterwards is all it holds, and a fetch
    evaluated then adds those measures alone: what was merged is in the
    store once.  The order is that of the run, not one the component
    enforces: the statement is about the fetches evaluated after the
    reset. *)
Theorem merge_is_followed_by_reset
    (s : Sys) (i : nat) (news : list (Measure * list RawMeasure)) :
  nth_error (requests s) i = Some (Q_measures, Some K_measures) ->
  JSON_parse_measures (JStr (JSON_stringify_measures (buf_measures (buffer s))))
  = Some (buf_measures (buffer s)) ->
  JSON_parse_measures (JStr (JSON_stringify_measures (map fst news))) = Some (map fst news) ->
  exists s1 s2 : Sys,
    act s (A_answer i) = Some s1
    /\ store (world s1) = store (world s) ++ buf_measures (buffer s)
    /\ (exists props : ChartProps, log s1 = log s ++ [DrawChart props; Evaluate Q_clear None])
    /\ requests s1 = remove_nth i (requests s) ++ [(Q_clear, None)]
    /\ buffer s1 = buffer s
    /\ acts s1 (A_answer (List.length (requests s) - 1) :: map record_action news) = Some s2
    /\ buffer s2 = record_all news empty_buffer
    /\ buf_measures (buffer s2) = map fst news
    /\ store (world s2) = store (world s1)
    /\ requests s2 = remove_nth i (requests s)
    /\ (forall j : nat,
           nth_error (requests s2) j = Some (Q_measures, Some K_measures) ->
           exists s3 : Sys,
             act s2 (A_answer j) = Some s3
             /\ store (world s3)
                = store (world s) ++ buf_measures (buffer s) ++ map fst news).
Proof.
  intros Hnth Hparse Hnews.
  destruct (answer_fetch s i _ Hnth Hparse) as (s1 & Hact & Hstore & Hlog & Hreq & Hbuf).
  pose proof (length_remove_nth _ _ _ Hnth) as Hlen.
  assert (Hreset : act s1 (A_answer (List.length (requests s) - 1))
                   = Some (with_buffer (with_requests s1 (remove_nth i (requests s)))
                                       empty_buffer)).
  { replace (List.length (requests s) - 1) with (List.length (remove_nth i (requests s)))
      by (rewrite <- Hlen; cbn; now rewrite Nat.sub_0_r).
    cbn [act]; rewrite Hreq, nth_error_last, remove_nth_last; reflexivity. }
  exists s1; eexists; split_all; try eassumption.
  - cbn [acts]; rewrite Hreset; apply acts_record.
  - reflexivity.
  - cbn [buffer with_buffer]; rewrite buf_measures_record_all; reflexivity.
  - reflexivity.
  - reflexivity.
  - intros j Hj.
    match goal with
    | |- exists s3, act ?s2 _ = _ /\ _ =>
        destruct (answer_fetch s2 j (map fst news) Hj) as (s3 & Hact3 & Hstore3 & _)
    end.
    + cbn [buffer with_buffer]; rewrite buf_measures_record_all; exact Hnews.
    + exists s3; split; [exact Hact3|].
      rewrite Hstore3; cbn [world with_buffer with_requests].
      rewrite Hstore; now rewrite app_assoc.
Qed.

End MoreFacts.

(** ** Concrete runs of the view, the chart and the surroundings *)

(** The hypotheses of X3 hold of a run through one whole poll cycle, in
    which nothing unmounts. *)
Lemma display_follows_store_witness :
  forallb (fun a => negb (unmounts a)) (Sample.start ++ Sample.cycle) = true
  /\ acts (boot empty_buffer) (Sample.start ++ Sample.cycle) = Some SampleImports.settled
  /\ (exists rest : list Measure,
         store (world SampleImports.settled)
         = perfData (state (world SampleImports.settled)) ++ rest)
  /\ (perfData (state (world SampleImports.settled)) = []
      \/ perfData (state (world SampleImports.settled)) = store (world SampleImports.settled)).
Proof.
  assert (Hl : forallb (fun a => negb (unmounts a)) (Sample.start ++ Sample.cycle) = true)
    by reflexivity.
  assert (H : acts (boot empty_buffer) (Sample.start ++ Sample.cycle)
              = Some SampleImports.settled) by (vm_compute; reflexivity).
  assert (Hm : mounted (world SampleImports.settled) = true) by (vm_compute; reflexivity).
  destruct (display_follows_store empty_buffer _ _ Hl H) as [Hfront Hwhole].
  split_all; [exact Hl | exact H | exact Hfront | exact (Hwhole Hm)].
Defined.

(** The hypothesis of X4 holds of the same run. *)
Lemma no_interval_leak_witness :
  acts (boot empty_buffer) (Sample.start ++ Sample.cycle) = Some SampleImports.settled
  /\ (List.length (intervals SampleImports.settled) <= 1)%nat.
Proof.
  assert (H : acts (boot empty_buffer) (Sample.start ++ Sample.cycle)
              = Some SampleImports.settled) by (vm_compute; reflexivity).
  split; [exact H|].
  exact (proj1 (no_interval_leak empty_buffer _ _ H)).
Defined.

(** The hypotheses of X5 hold of the same run, in which nothing fails. *)
Lemma no_failure_no_error_witness :
  forallb (fun a => negb (is_failure a)) (Sample.start ++ Sample.cycle) = true
  /\ acts (boot empty_buffer) (Sample.start ++ Sample.cycle) = Some SampleImports.settled
  /\ hasError (state (world SampleImports.settled)) = false.
Proof.
  assert (H : acts (boot empty_buffer) (Sample.start ++ Sample.cycle)
              = Some SampleImports.settled) by (vm_compute; reflexivity).
  split; [reflexivity|]. split; [exact H|].
  exact (proj1 (no_failure_no_error (I := SampleImports.imports)
                  empty_buffer (Sample.start ++ Sample.cycle) _ eq_refl H)).
Defined.

(** The hypotheses of X6 hold when the fetch of the one buffered measure
    is outstanding and a second measure is recorded before the reset. *)
Lemma records_before_the_reset_are_lost_witness :
  nth_error (requests SampleImports.fetching) 1 = Some (Q_measures, Some K_measures)
  /\ JSON_parse_measures
       (JStr (JSON_stringify_measures (buf_measures (buffer SampleImports.fetching))))
     = Some (buf_measures (buffer SampleImports.fetching))
  /\ exists s' : Sys,
       acts SampleImports.fetching
            [A_answer 1; A_record Sample.row []; A_answer 1] = Some s'
       /\ store (world s') = [Sample.app]
       /\ buffer s' = empty_buffer.
Proof.
  assert (Hnth : nth_error (requests SampleImports.fetching) 1
                 = Some (Q_measures, Some K_measures)) by (vm_compute; reflexivity).
  assert (Hparse : JSON_parse_measures
                     (JStr (JSON_stringify_measures
                              (buf_measures (buffer SampleImports.fetching))))
                   = Some (buf_measures (buffer SampleImports.fetching)))
    by (vm_compute; reflexivity).
  split; [exact Hnth|]. split; [exact Hparse|].
  destruct (records_before_the_reset_are_lost SampleImports.fetching 1
              [(Sample.row, @nil Sample.Entry)] Hnth Hparse)
    as (s' & Hacts & Hstore & Hbuf & _).
  exists s'; split; [exact Hacts|]. split; [exact Hstore | exact Hbuf].
Defined.

(** The hypotheses of C9 hold when the fetches of two overlapping polls
    are outstanding, the first is answered, the reset is evaluated, a
    second measure is recorded, and the other fetch is answered: the
    store holds each measure once. *)
Lemma merge_is_followed_by_reset_witness :
  nth_error (requests SampleImports.overlapping) 1 = Some (Q_measures, Some K_measures)
  /\ JSON_parse_measures
       (JStr (JSON_stringify_measures (buf_measures (buffer SampleImports.overlapping))))
     = Some (buf_measures (buffer SampleImports.overlapping))
  /\ JSON_parse_measures (JStr (JSON_stringify_measures [Sample.row])) = Some [Sample.row]
  /\ exists s2 s3 : Sys,
       acts SampleImports.overlapping [A_answer 1; A_answer 3; A_record Sample.row []]
       = Some s2
       /\ buf_measures (buffer s2) = [Sample.row]
       /\ act s2 (A_answer 2) = Some s3
       /\ store (world s3) = [Sample.app; Sample.row].
Proof.
  assert (Hnth : nth_error (requests SampleImports.overlapping) 1
                 = Some (Q_measures, Some K_measures)) by (vm_compute; reflexivity).
  assert (Hparse : JSON_parse_measures
                     (JStr (JSON_stringify_measures
                              (buf_measures (buffer SampleImports.overlapping))))
                   = Some (buf_measures (buffer SampleImports.overlapping)))
    by (vm_compute; reflexivity).
  assert (Hnews : JSON_parse_measures (JStr (JSON_stringify_measures [Sample.row]))
                  = Some [Sample.row]) by (vm_compute; reflexivity).
  split_all; [exact Hnth | exact Hparse | exact Hnews |].
  destruct (merge_is_followed_by_reset SampleImports.overlapping 1
              [(Sample.row, @nil Sample.Entry)] Hnth Hparse Hnews)
    as (s1 & s2 & Hact & _ & _ & _ & _ & Hacts & _ & Hbuf & _ & Hreq & Hnext).
  assert (Hj : nth_error (requests s2) 2 = Some (Q_measures, Some K_measures))
    by (rewrite Hreq; vm_compute; reflexivity).
  destruct (Hnext 2%nat Hj) as (s3 & Hact3 & Hstore3).
  exists s2, s3; split_all.
  - cbn [acts]; rewrite Hact; exact Hacts.
  - exact Hbuf.
  - exact Hact3.
  - rewrite Hstore3; vm_compute; reflexivity.
Defined.

(** C9 fails as stated.  Two ticks pass before the first length query is
    answered, so the fetches of two polls are outstanding.  The first
    fetch is merged and its callback issues the reset at once; the
    measure it merged is still in the buffer, and the fetch of the other
    poll is ahead of the reset among the outstanding requests.  The
    requests are answered in the order they were issued, none fails and
    both resets are evaluated: the store holds the one measure twice. *)
Lemma merged_measure_is_fetched_again :
  match acts (boot empty_buffer)
             (Sample.start ++ [A_tick; A_tick; A_answer 0; A_answer 0;
                               A_answer 0; A_answer 0]) with
  | Some merged =>
      store (world merged) = [Sample.app]
      /\ buf_measures (buffer merged) = [Sample.app]
      /\ requests merged = [(Q_rawMeasures, Some K_rawMeasures);
                            (Q_measures, Some K_measures);
                            (Q_clear, None)]
      /\ last (log merged) InspectedWindowReload = Evaluate Q_clear None
      /\ match acts merged [A_answer 0; A_answer 0; A_answer 0; A_answer 0] with
         | Some s =>
             store (world s) = [Sample.app; Sample.app]
             /\ buffer s = empty_buffer
             /\ requests s = []
             /\ hasError (state (world s)) = false
         | None => False
         end
  | None => False
  end.
Proof. vm_compute; split_all; reflexivity. Qed.

(** The hypothesis of X7 holds of the merge of one measure. *)
Lemma chart_is_drawn_only_by_a_merge_witness :
  In (DrawChart (mkChartProps "1.50" [] 1))
     (snd (step Sample.polling (Deliver K_measures (Sample.wire [Sample.app]) None)))
  /\ exists (v : jsval) (batch : list Measure),
       Deliver K_measures (Sample.wire [Sample.app]) None = Deliver K_measures v None
       /\ JSON_parse_measures v = Some batch.
Proof.
  assert (H : In (DrawChart (mkChartProps "1.50" [] 1))
                 (snd (step Sample.polling
                         (Deliver K_measures (Sample.wire [Sample.app]) None))))
    by (left; reflexivity).
  split; [exact H|].
  destruct (chart_is_drawn_only_by_a_merge _ _ _ H) as (v & batch & He & Hp & _).
  exists v, batch; split; assumption.
Defined.

(** The hypotheses of X8 hold of a second instance mounted on a store
    that holds one measure. *)
Lemma new_instance_fetches_whatever_the_store_holds_witness :
  strict_eq (JStr "1") (JNum 0) = false
  /\ JSON_parse_count (JStr "1") = Some (JNum 1)
  /\ JSON_parse_measures (Sample.wire [Sample.row]) = Some [Sample.row]
  /\ store (world SampleImports.settled) = [Sample.app]
  /\ perfData (state (fst (step
        (fst (step (fst (step (world SampleImports.settled) (Mount 2%positive)))
                   (Deliver K_measuresLength (JStr "1") None)))
        (Deliver K_measures (Sample.wire [Sample.row]) None))))
     = [Sample.app; Sample.row].
Proof.
  pose proof (new_instance_fetches_whatever_the_store_holds
                (world SampleImports.settled) 2%positive (JStr "1") (JNum 1)
                (Sample.wire [Sample.row]) [Sample.row] eq_refl eq_refl eq_refl)
    as (_ & _ & _ & _ & Hshown).
  split_all; [reflexivity | reflexivity | reflexivity | reflexivity |].
  rewrite Hshown; reflexivity.
Defined.

(** The hypotheses of X10 hold of a panel whose length query has failed
    and that then polls, fetches and merges with success. *)
Lemma error_hides_measures_for_good_witness :
  let evs := [Tick;
              Deliver K_measuresLength (JStr "1") None;
              Deliver K_measures (Sample.wire [Sample.app]) None] in
  forallb (fun e => negb (is_mount e)) evs = true
  /\ hasError (state SampleImports.failed) = true
  /\ store (fst (run SampleImports.failed evs)) = [Sample.app]
  /\ shown_measures (render (state (fst (run SampleImports.failed evs)))) = None.
Proof.
  cbv zeta.
  match goal with
  | |- forallb _ ?evs = true /\ _ =>
      pose proof (error_hides_measures_for_good (I := SampleImports.imports)
                    SampleImports.failed evs eq_refl eq_refl) as [Hhidden _]
  end.
  split_all; [reflexivity | reflexivity | reflexivity | exact Hhidden].
Defined.

(** The hypotheses of X11 hold of the merge of one measure by a mounted
    panel. *)
Lemma chart_of_a_merge_witness :
  JSON_parse_measures (Sample.wire [Sample.app]) = Some [Sample.app]
  /\ mounted Sample.polling = true
  /\ exists p : ChartProps,
       snd (step Sample.polling (Deliver K_measures (Sample.wire [Sample.app]) None))
       = [DrawChart p; Evaluate Q_clear None]
       /\ nth_error (config_labels (chart_config p)) 0 = Some "1 component (ms)".
Proof.
  assert (Hparse : JSON_parse_measures (Sample.wire [Sample.app]) = Some [Sample.app])
    by reflexivity.
  assert (Hm : mounted Sample.polling = true) by reflexivity.
  split; [exact Hparse|]. split; [exact Hm|].
  destruct (chart_of_a_merge (I := SampleImports.imports) Sample.polling
              (Sample.wire [Sample.app]) [Sample.app] Hparse Hm)
    as (p & Hout & _ & _ & Hlabel).
  exists p; split; [exact Hout|].
  rewrite Hlabel; reflexivity.
Defined.
